(** * vtool: the vulnerability classification core, embedded and verified

    A shallow embedding of the analysis pipeline of the server
    (manifestParser.js, reachabilityAnalyzer.js, falsePositiveDetector.js,
    jsonGenerator.js) and the properties stated about it.

    Conventions of the embedding.
    - JavaScript strings are [string]s over ASCII text: case mapping acts on
      [A-Z]/[a-z], the white space class is the ASCII one, and bytes above 127
      are opaque symbols.
    - A string field that JavaScript reads through [x || d] or [!x] is a
      [string] whose empty value stands for both a missing and an empty field
      (both are falsy).
    - A JavaScript object iterated with [Object.entries] is the list of its
      entries in iteration order; an object indexed by key is a [gmap].
    - Integers are [nat]; the only genuinely fractional computation, the
      false-positive rate, is carried out on binary64 numbers. *)

From Stdlib Require Import ZArith Floats Ascii String List Bool Lia.
From stdpp Require Import gmap strings list.

Local Open Scope string_scope.
Local Open Scope list_scope.

(** ** JavaScript string primitives *)

Module JS.

Definition code (c : ascii) : nat := nat_of_ascii c.

Definition between (lo hi : nat) (c : ascii) : bool :=
  Nat.leb lo (code c) && Nat.leb (code c) hi.

(** [\d], [\w] and [\s] on ASCII text. *)
Definition isDigit (c : ascii) : bool := between 48 57 c.
Definition isUpper (c : ascii) : bool := between 65 90 c.
Definition isLower (c : ascii) : bool := between 97 122 c.
Definition isWord (c : ascii) : bool :=
  isDigit c || isUpper c || isLower c || Nat.eqb (code c) 95.
Definition isSpace (c : ascii) : bool :=
  Nat.eqb (code c) 32 || between 9 13 c.

Definition isChar (a : ascii) (c : ascii) : bool := Ascii.eqb a c.

Definition lowerChar (c : ascii) : ascii :=
  if isUpper c then ascii_of_nat (code c + 32) else c.
Definition upperChar (c : ascii) : ascii :=
  if isLower c then ascii_of_nat (code c - 32) else c.

Fixpoint mapChars (f : ascii -> ascii) (s : string) : string :=
  match s with
  | EmptyString => EmptyString
  | String c s' => String (f c) (mapChars f s')
  end.

Definition toLowerCase : string -> string := mapChars lowerChar.
Definition toUpperCase : string -> string := mapChars upperChar.

(** [s.replace(/[class]/g, '')]: every character of the class is dropped. *)
Fixpoint removeAll (p : ascii -> bool) (s : string) : string :=
  match s with
  | EmptyString => EmptyString
  | String c s' => if p c then removeAll p s' else String c (removeAll p s')
  end.

(** [s.replace(/^[class]+/, '')]: the leading run of the class is dropped. *)
Fixpoint removeLeading (p : ascii -> bool) (s : string) : string :=
  match s with
  | EmptyString => EmptyString
  | String c s' => if p c then removeLeading p s' else s
  end.

Fixpoint startsWith (s p : string) : bool :=
  match p, s with
  | EmptyString, _ => true
  | String a p', String b s' => Ascii.eqb a b && startsWith s' p'
  | String _ _, EmptyString => false
  end.

Fixpoint includes (s sub : string) : bool :=
  startsWith s sub ||
  match s with
  | EmptyString => false
  | String _ s' => includes s' sub
  end.

Fixpoint endsWith (s suf : string) : bool :=
  String.eqb s suf ||
  match s with
  | EmptyString => false
  | String _ s' => endsWith s' suf
  end.

Fixpoint reverse (s : string) : string :=
  match s with
  | EmptyString => EmptyString
  | String c s' => reverse s' +:+ String c EmptyString
  end.

Definition trim (s : string) : string :=
  reverse (removeLeading isSpace (reverse (removeLeading isSpace s))).

(** [s.split(c)] for a one-character separator: never the empty list. *)
Fixpoint split (sep : ascii) (s : string) : list string :=
  match s with
  | EmptyString => [EmptyString]
  | String c s' =>
      if Ascii.eqb c sep then EmptyString :: split sep s'
      else match split sep s' with
           | h :: t => String c h :: t
           | [] => [String c EmptyString]
           end
  end.

(** [s.indexOf(c)] as an option. *)
Fixpoint indexOf (c : ascii) (s : string) : option nat :=
  match s with
  | EmptyString => None
  | String a s' => if Ascii.eqb a c then Some 0 else S <$> indexOf c s'
  end.

Fixpoint take (n : nat) (s : string) : string :=
  match n, s with
  | S n', String c s' => String c (take n' s')
  | _, _ => EmptyString
  end.

Fixpoint drop (n : nat) (s : string) : string :=
  match n, s with
  | S n', String _ s' => drop n' s'
  | _, _ => s
  end.

(** A truthy string is a non-empty one. *)
Definition truthy (s : string) : bool :=
  match s with EmptyString => false | _ => true end.

(** [a || b] on strings. *)
Definition orElse (a b : string) : string := if truthy a then a else b.

(** *** Regular expressions, matched through derivatives *)

Inductive re : Type :=
| Void
| Eps
| Cls (p : ascii -> bool)
| Cat (r1 r2 : re)
| Alt (r1 r2 : re)
| Star (r : re).

Definition Plus (r : re) : re := Cat r (Star r).
Definition Opt (r : re) : re := Alt r Eps.
Definition Chr (c : ascii) : re := Cls (isChar c).

Fixpoint Lit (s : string) : re :=
  match s with
  | EmptyString => Eps
  | String c s' => Cat (Chr c) (Lit s')
  end.

Fixpoint nullable (r : re) : bool :=
  match r with
  | Void => false
  | Eps => true
  | Cls _ => false
  | Cat r1 r2 => nullable r1 && nullable r2
  | Alt r1 r2 => nullable r1 || nullable r2
  | Star _ => true
  end.

Fixpoint deriv (c : ascii) (r : re) : re :=
  match r with
  | Void => Void
  | Eps => Void
  | Cls p => if p c then Eps else Void
  | Cat r1 r2 =>
      if nullable r1 then Alt (Cat (deriv c r1) r2) (deriv c r2)
      else Cat (deriv c r1) r2
  | Alt r1 r2 => Alt (deriv c r1) (deriv c r2)
  | Star r1 => Cat (deriv c r1) (Star r1)
  end.

Fixpoint matches (r : re) (s : string) : bool :=
  match s with
  | EmptyString => nullable r
  | String c s' => matches (deriv c r) s'
  end.

(** [s.replace(/r$/, '')]: the match starts at the leftmost position from
    which the rest of the string is in the language of [r]. *)
Fixpoint removeAtEnd (r : re) (s : string) : string :=
  if matches r s then EmptyString
  else match s with
       | EmptyString => EmptyString
       | String c s' => String c (removeAtEnd r s')
       end.

(** Length of the longest prefix of [s] in the language of [r]. *)
Fixpoint longestPrefix (r : re) (s : string) : option nat :=
  match s with
  | EmptyString => if nullable r then Some 0 else None
  | String c s' =>
      match longestPrefix (deriv c r) s' with
      | Some n => Some (S n)
      | None => if nullable r then Some 0 else None
      end
  end.

(** [s.replace(/r/, '')] for an [r] whose only quantifier is greedy and
    followed by a fixed tail, so that the match taken at the leftmost
    matching position is the longest one. *)
Fixpoint removeFirst (r : re) (s : string) : string :=
  match longestPrefix r s with
  | Some n => drop n s
  | None =>
      match s with
      | EmptyString => EmptyString
      | String c s' => String c (removeFirst r s')
      end
  end.

(** [parseInt(digits) || 0] on a string of decimal digits, read exactly
    (JavaScript agrees below 2^53). *)
Definition digitValue (c : ascii) : nat := code c - 48.

Fixpoint parseDigits (acc : nat) (s : string) : nat :=
  match s with
  | EmptyString => acc
  | String c s' => parseDigits (10 * acc + digitValue c) s'
  end.

End JS.

(** ** manifestParser.js *)

(** [/^[\^~>=<]+/] *)
Definition rangeOperator (c : ascii) : bool :=
  JS.isChar "^" c || JS.isChar "~" c || JS.isChar ">" c || JS.isChar "=" c || JS.isChar "<" c.

Definition cleanVersionString (version : string) : string :=
  if negb (JS.truthy version) then "Unknown"
  else JS.trim (JS.removeAll JS.isSpace (JS.removeLeading rangeOperator version)).

(** [/@[\w/-]+\//], the npm scope. *)
Definition scopePattern : JS.re :=
  JS.Cat (JS.Chr "@")
    (JS.Cat (JS.Plus (JS.Cls (fun c => JS.isWord c || JS.isChar "/" c || JS.isChar "-" c)))
            (JS.Chr "/")).

Definition normalizePackageName (name : string) : string :=
  if negb (JS.truthy name) then ""
  else JS.trim
         (JS.removeFirst scopePattern
            (JS.removeAll (fun c => JS.isChar "_" c || JS.isChar "-" c)
               (JS.toLowerCase name))).

Definition versionsMatch (version1 version2 : string) : bool :=
  if negb (JS.truthy version1) || negb (JS.truthy version2) then false
  else
    let clean1 := cleanVersionString version1 in
    let clean2 := cleanVersionString version2 in
    String.eqb clean1 clean2 ||
    JS.startsWith clean1 clean2 ||
    JS.startsWith clean2 clean1.

(** ** The data model *)

Inductive Confidence : Type := HIGH | MEDIUM | LOW.

Inductive PathClass : Type := prod | non_prod | unknown.

Inductive Reason : Type :=
| VERSION_MISMATCH
| NON_REACHABLE
| ENV_MISMATCH
| UNUSED_TRANSITIVE
| DEV_ONLY.

#[global] Instance Confidence_eq_dec : EqDecision Confidence.
Proof. solve_decision. Defined.
#[global] Instance PathClass_eq_dec : EqDecision PathClass.
Proof. solve_decision. Defined.
#[global] Instance Reason_eq_dec : EqDecision Reason.
Proof. solve_decision. Defined.

(** A finding of the report parser. The fields the pipeline only copies
    (cvssScore, source, vulnerableSoftware) are left out. *)
Record Finding : Type := mkFinding {
  cveId : string;
  dependency : string;
  version : string;
  reportedVersion : string;
  severity : string;
  description : string;
  references : list string;
  filePath : string
}.

#[global] Instance Finding_eq_dec : EqDecision Finding.
Proof. solve_decision. Defined.

Record OwaspData : Type := mkOwasp { vulnerabilities : list Finding }.

(** An entry of [manifest.dependencies] is an object; an entry of
    [productionDependencies] or [devDependencies] is a bare version string.
    The code tells them apart with [typeof info === 'object']. *)
Record DepInfo : Type := mkDepInfo {
  info_version : string;
  isDev : bool;
  isOptional : bool
}.

Inductive DepValue : Type :=
| InfoObject (i : DepInfo)
| InfoString (v : string).

(** [Object.entries] of a dependency object. *)
Definition DepMap : Type := list (string * DepValue).

Record Manifest : Type := mkManifest {
  mname : string;
  mtype : string;
  dependencies : DepMap;
  productionDependencies : DepMap;
  devDependencies : DepMap
}.

Record Node : Type := mkNode { node_name : string; node_id : string }.

Record Edge : Type := mkEdge {
  edge_from : string;
  edge_source : string;
  edge_to : string;
  edge_target : string
}.

(** The call graph comes in the [{nodes, edges}] or the [{functions, calls}]
    shape; a field that is absent is [None] (an empty array is present). *)
Record CallGraph : Type := mkCallGraph {
  nodes : option (list Node);
  functions : option (list Node);
  edges : option (list Edge);
  calls : option (list Edge)
}.

Record ReachabilityInfo : Type := mkReach {
  isReachable : bool;
  confidence : Confidence;
  reason : string;
  isDirect : option bool;
  isDevDependency : option bool;
  matchedDependency : option string;
  actualVersion : option string;
  callGraphEvidence : option string;
  pathClassification : PathClass
}.

Record ReachabilityResults : Type := mkResults {
  directDependencies : list string;
  transitiveDependencies : list string;
  unreachableDependencies : list string;
  reachabilityMap : gmap string ReachabilityInfo
}.

(** ** reachabilityAnalyzer.js *)

Module ReachabilityAnalyzer.

(** [/\.(jar|war|zip|tar\.gz|tgz|whl|egg)$/i] *)
Definition LitI (s : string) : JS.re :=
  (fix go (s : string) : JS.re :=
     match s with
     | EmptyString => JS.Eps
     | String a s' =>
         JS.Cat (JS.Cls (fun c => Ascii.eqb (JS.lowerChar c) a)) (go s')
     end) s.

Definition archiveExtension : JS.re :=
  JS.Cat (JS.Chr ".")
    (JS.Alt (LitI "jar") (JS.Alt (LitI "war") (JS.Alt (LitI "zip")
    (JS.Alt (LitI "tar.gz") (JS.Alt (LitI "tgz") (JS.Alt (LitI "whl")
    (LitI "egg"))))))).

(** [/-\d+\.\d+(\.\d+)?([.-][\w.]+)?$/] *)
Definition versionPattern : JS.re :=
  let digits := JS.Plus (JS.Cls JS.isDigit) in
  JS.Cat (JS.Chr "-")
    (JS.Cat digits (JS.Cat (JS.Chr ".") (JS.Cat digits
    (JS.Cat (JS.Opt (JS.Cat (JS.Chr ".") digits))
            (JS.Opt (JS.Cat (JS.Cls (fun c => JS.isChar "." c || JS.isChar "-" c))
                            (JS.Plus (JS.Cls (fun c => JS.isWord c || JS.isChar "." c))))))))).

Definition extractPackageName (dependency : string) : string :=
  if negb (JS.truthy dependency) then ""
  else
    let name := JS.removeAtEnd archiveExtension dependency in
    match (if JS.includes name ":" then JS.split ":" name else []) with
    | _ :: artifactId :: _ => artifactId
    | _ =>
        let name :=
          if JS.includes name "@" && negb (JS.startsWith name "@")
          then hd "" (JS.split "@" name) else name in
        let name :=
          match name with
          | String "@" rest =>
              match JS.indexOf "@" rest with
              | Some i => JS.take (S i) name
              | None => name
              end
          | _ => name
          end in
        JS.removeAtEnd versionPattern name
    end.

Record Match : Type := mkMatch {
  match_name : string;
  match_version : string;
  match_info : DepValue;
  partialMatch : bool
}.

(** [typeof info === 'object' ? info.version : info] *)
Definition versionOf (info : DepValue) : string :=
  match info with
  | InfoObject i => info_version i
  | InfoString v => v
  end.

(** The loop over [Object.entries(manifestDeps)] of [findDependencyMatch]. *)
Fixpoint findEntry (normalizedSearch : string) (entries : DepMap) : option Match :=
  match entries with
  | [] => None
  | (name, info) :: rest =>
      let normalizedName := normalizePackageName name in
      if String.eqb normalizedName normalizedSearch
      then Some (mkMatch name (versionOf info) info false)
      else if JS.includes normalizedName normalizedSearch
              || JS.includes normalizedSearch normalizedName
      then Some (mkMatch name (versionOf info) info true)
      else findEntry normalizedSearch rest
  end.

Definition findDependencyMatch (depName : string) (manifestDeps : DepMap)
  : option Match :=
  if negb (JS.truthy depName) then None
  else findEntry (normalizePackageName depName) manifestDeps.

Definition nonProdMarkers : list string :=
  ["test"; "__tests__"; "spec"; "__mocks__"; "example"; "examples"; "demo";
   "sample"; "fixture"].

Definition classifyPath (filePath : string) : PathClass :=
  if negb (JS.truthy filePath) then unknown
  else
    let lowered := JS.toLowerCase filePath in
    let isNonProd :=
      existsb (fun marker =>
        JS.includes lowered ("/" +:+ marker +:+ "/") ||
        JS.includes lowered ("\" +:+ marker +:+ "\") ||
        JS.endsWith lowered ("/" +:+ marker) ||
        JS.endsWith lowered ("\" +:+ marker)) nonProdMarkers in
    if isNonProd then non_prod else prod.

Record CallGraphResult : Type := mkCgResult {
  cg_isReachable : bool;
  cg_confidence : Confidence;
  cg_reason : string;
  cg_evidence : string
}.

(** [node.name || node.id || ''] *)
Definition nodeLabel (node : Node) : string :=
  JS.orElse (node_name node) (JS.orElse (node_id node) "").

Definition referencedByNode (normalized : string) (ns : list Node) : bool :=
  existsb (fun node => String.eqb (normalizePackageName (nodeLabel node)) normalized) ns.

Definition referencedByEdge (normalized : string) (es : list Edge) : bool :=
  existsb (fun edge =>
    let from := normalizePackageName (JS.orElse (edge_from edge) (JS.orElse (edge_source edge) "")) in
    let to := normalizePackageName (JS.orElse (edge_to edge) (JS.orElse (edge_target edge) "")) in
    JS.includes from normalized || JS.includes to normalized) es.

(** [callGraph.nodes || callGraph.functions || []] *)
Definition graphNodes (g : CallGraph) : list Node :=
  match nodes g with
  | Some ns => ns
  | None => match functions g with Some ns => ns | None => [] end
  end.

Definition graphEdges (g : CallGraph) : list Edge :=
  match edges g with
  | Some es => es
  | None => match calls g with Some es => es | None => [] end
  end.

Definition assessCallGraphReachability (vuln : Finding) (callGraph : option CallGraph)
  : option CallGraphResult :=
  match callGraph with
  | None => None
  | Some g =>
      let dependencyName := extractPackageName (dependency vuln) in
      let normalized := normalizePackageName dependencyName in
      let byNode := referencedByNode normalized (graphNodes g) in
      let byEdge := referencedByEdge normalized (graphEdges g) in
      if negb byNode && negb byEdge then
        Some (mkCgResult false HIGH
                "Call graph analysis: no invocation path to the vulnerable component"
                "No call graph nodes or edges reference this dependency")
      else
        Some (mkCgResult true (if byEdge then HIGH else MEDIUM)
                "Call graph analysis: vulnerable component is referenced in application call graph"
                "Call graph contains references to the vulnerable component")
  end.

End ReachabilityAnalyzer.

Import ReachabilityAnalyzer.

(** The record written for one finding when no manifest was supplied
    (body of the first loop of [analyzeReachability]). *)
Definition infoWithoutManifest (callGraph : option CallGraph) (vuln : Finding)
  : ReachabilityInfo :=
  let callGraphResult := assessCallGraphReachability vuln callGraph in
  let pathClassification := classifyPath (filePath vuln) in
  {| isReachable :=
       match callGraphResult with Some r => cg_isReachable r | None => true end;
     confidence :=
       match callGraphResult with
       | Some r => cg_confidence r
       | None => if decide (pathClassification = non_prod) then MEDIUM else LOW
       end;
     reason :=
       JS.orElse (match callGraphResult with Some r => cg_reason r | None => "" end)
         (if decide (pathClassification = non_prod)
          then "Vulnerability exists in non-production/test/example path"
          else "No manifest provided - reachability assumed");
     isDirect := None;
     isDevDependency := None;
     matchedDependency := None;
     actualVersion := None;
     callGraphEvidence :=
       match callGraphResult with
       | Some r => if JS.truthy (cg_evidence r) then Some (cg_evidence r) else None
       | None => None
       end;
     pathClassification := pathClassification |}.

(** Assignments to the fields of [reachabilityInfo]. *)
Definition setVerdict (b : bool) (c : Confidence) (why : string)
  (i : ReachabilityInfo) : ReachabilityInfo :=
  {| isReachable := b; confidence := c; reason := why;
     isDirect := isDirect i; isDevDependency := isDevDependency i;
     matchedDependency := matchedDependency i; actualVersion := actualVersion i;
     callGraphEvidence := callGraphEvidence i;
     pathClassification := pathClassification i |}.

Definition setDirect (d : bool) (i : ReachabilityInfo) : ReachabilityInfo :=
  {| isReachable := isReachable i; confidence := confidence i; reason := reason i;
     isDirect := Some d; isDevDependency := isDevDependency i;
     matchedDependency := matchedDependency i; actualVersion := actualVersion i;
     callGraphEvidence := callGraphEvidence i;
     pathClassification := pathClassification i |}.

Definition setMatched (m : Match) (i : ReachabilityInfo) : ReachabilityInfo :=
  {| isReachable := isReachable i; confidence := confidence i; reason := reason i;
     isDirect := isDirect i; isDevDependency := isDevDependency i;
     matchedDependency := Some (match_name m);
     actualVersion := Some (match_version m);
     callGraphEvidence := callGraphEvidence i;
     pathClassification := pathClassification i |}.

Definition setDev (i : ReachabilityInfo) : ReachabilityInfo :=
  {| isReachable := isReachable i; confidence := confidence i; reason := reason i;
     isDirect := isDirect i; isDevDependency := Some true;
     matchedDependency := matchedDependency i; actualVersion := actualVersion i;
     callGraphEvidence := callGraphEvidence i;
     pathClassification := pathClassification i |}.

Definition setEvidence (e : string) (i : ReachabilityInfo) : ReachabilityInfo :=
  {| isReachable := isReachable i; confidence := confidence i; reason := reason i;
     isDirect := isDirect i; isDevDependency := isDevDependency i;
     matchedDependency := matchedDependency i; actualVersion := actualVersion i;
     callGraphEvidence := Some e;
     pathClassification := pathClassification i |}.

(** [cond && step]: one guarded block of assignments. *)
Definition when {A : Type} (cond : bool) (step : A -> A) (x : A) : A :=
  if cond then step x else x.

(** [directMatch?.info?.isOptional] *)
Definition matchIsOptional (m : option Match) : bool :=
  match m with
  | Some {| match_info := InfoObject i |} => isOptional i
  | _ => false
  end.

Definition isSome {A : Type} (o : option A) : bool :=
  match o with Some _ => true | None => false end.

(** The record written for one finding when a manifest was supplied (body of
    the second loop of [analyzeReachability]), the guarded blocks applied in
    the order of the source, from the baseline on. *)
Definition infoWithManifest (manifestData : Manifest) (callGraph : option CallGraph)
  (vuln : Finding) : ReachabilityInfo :=
  let depName := extractPackageName (dependency vuln) in
  let directMatch := findDependencyMatch depName (dependencies manifestData) in
  let prodMatch := findDependencyMatch depName (productionDependencies manifestData) in
  let devMatch := findDependencyMatch depName (devDependencies manifestData) in
  let reachabilityInfo :=
    {| isReachable := true; confidence := MEDIUM;
       reason := "No reachability blockers detected";
       isDirect := Some false; isDevDependency := Some false;
       matchedDependency := None; actualVersion := None;
       callGraphEvidence := None;
       pathClassification := classifyPath (filePath vuln) |} in
  let reachabilityInfo :=
    match directMatch with
    | Some m => setMatched m (setDirect true reachabilityInfo)
    | None => reachabilityInfo
    end in
  let reachabilityInfo :=
    match assessCallGraphReachability vuln callGraph with
    | Some r =>
        setVerdict (cg_isReachable r) (cg_confidence r) (cg_reason r)
          (setEvidence (cg_evidence r) reachabilityInfo)
    | None => reachabilityInfo
    end in
  let reachabilityInfo :=
    when (isSome devMatch && negb (isSome prodMatch))
      (fun i => setVerdict false HIGH
         "Development-only dependency - not included in production builds" (setDev i))
      reachabilityInfo in
  let reachabilityInfo :=
    when (negb (isSome devMatch) && isSome prodMatch)
      (setVerdict true HIGH "Direct production dependency - code is reachable")
      reachabilityInfo in
  let reachabilityInfo :=
    when (negb (isSome directMatch))
      (fun i => setVerdict true (confidence i)
         "Transitive dependency - may or may not be reachable" (setDirect false i))
      reachabilityInfo in
  let reachabilityInfo :=
    when (bool_decide (pathClassification reachabilityInfo = non_prod))
      (setVerdict false HIGH "Vulnerability exists in non-production/test/example path")
      reachabilityInfo in
  when (matchIsOptional directMatch && negb (isSome prodMatch))
    (setVerdict false MEDIUM "Optional dependency not included in production runtime")
    reachabilityInfo.

(** What one iteration pushes on the three dependency lists. *)
Definition pushesWithManifest (manifestData : Manifest) (vuln : Finding)
  : list string * list string * list string :=
  let depName := extractPackageName (dependency vuln) in
  let directMatch := findDependencyMatch depName (dependencies manifestData) in
  let prodMatch := findDependencyMatch depName (productionDependencies manifestData) in
  let devMatch := findDependencyMatch depName (devDependencies manifestData) in
  let dep := [dependency vuln] in
  let none : list string := [] in
  (if negb (isSome devMatch) && isSome prodMatch then dep else none,
   if negb (isSome directMatch) then dep else none,
   (if isSome devMatch && negb (isSome prodMatch) then dep else none) ++
   (if bool_decide (classifyPath (filePath vuln) = non_prod) then dep else none) ++
   (if matchIsOptional directMatch && negb (isSome prodMatch) then dep else none)).

(** One iteration of either loop: the lists grow, the record is stored under
    [vuln.cveId]. *)
Definition analyzeOne (manifestData : option Manifest) (callGraph : option CallGraph)
  (results : ReachabilityResults) (vuln : Finding) : ReachabilityResults :=
  match manifestData with
  | None =>
      {| directDependencies := directDependencies results;
         transitiveDependencies := transitiveDependencies results;
         unreachableDependencies :=
           unreachableDependencies results ++
           (if bool_decide (classifyPath (filePath vuln) = non_prod)
            then [dependency vuln] else []);
         reachabilityMap :=
           <[cveId vuln := infoWithoutManifest callGraph vuln]> (reachabilityMap results) |}
  | Some m =>
      let '(direct, transitive, unreachable) := pushesWithManifest m vuln in
      {| directDependencies := directDependencies results ++ direct;
         transitiveDependencies := transitiveDependencies results ++ transitive;
         unreachableDependencies := unreachableDependencies results ++ unreachable;
         reachabilityMap :=
           <[cveId vuln := infoWithManifest m callGraph vuln]> (reachabilityMap results) |}
  end.

Definition analyzeReachability (owaspData : OwaspData) (manifestData : option Manifest)
  (callGraph : option CallGraph) : ReachabilityResults :=
  fold_left (analyzeOne manifestData callGraph) (vulnerabilities owaspData)
    {| directDependencies := []; transitiveDependencies := [];
       unreachableDependencies := []; reachabilityMap := ∅ |}.

(** The record built for a finding, whichever loop runs. *)
Definition reachabilityInfoOf (manifestData : option Manifest)
  (callGraph : option CallGraph) (vuln : Finding) : ReachabilityInfo :=
  match manifestData with
  | None => infoWithoutManifest callGraph vuln
  | Some m => infoWithManifest m callGraph vuln
  end.

(** ** falsePositiveDetector.js *)

Record FpResult : Type := mkFp {
  isFalsePositive : bool;
  fp_reason : option Reason;
  details : string;
  fp_confidence : Confidence
}.

(** An element of the array returned by [detectFalsePositives]. *)
Record FalsePositive : Type := mkFalsePositive {
  cve_id : string;
  fp_dependency : string;
  reason_code : option Reason;
  fp_details : string;
  confidence_grade : Confidence;
  originalVuln : Finding
}.

Module FalsePositiveDetector.

(** The detector has its own copy of [extractPackageName], without the
    block for scoped packages. *)
Definition extractPackageName (dependency : string) : string :=
  if negb (JS.truthy dependency) then ""
  else
    let name := JS.removeAtEnd archiveExtension dependency in
    match (if JS.includes name ":" then JS.split ":" name else []) with
    | _ :: artifactId :: _ => artifactId
    | _ =>
        let name :=
          if JS.includes name "@" && negb (JS.startsWith name "@")
          then hd "" (JS.split "@" name) else name in
        JS.removeAtEnd versionPattern name
    end.

Definition formatDependency (dependency version : string) : string :=
  if JS.truthy version && negb (String.eqb version "Unknown")
  then dependency +:+ "@" +:+ version
  else dependency.

(** [parseInt(p.replace(/\D/g, '')) || 0] *)
Definition versionPart (p : string) : nat :=
  JS.parseDigits 0 (JS.removeAll (fun c => negb (JS.isDigit c)) p).

Definition versionParts (v : string) : list nat :=
  map versionPart (JS.split "." v).

(** The [for] loop of [isHigherVersion]: [i] is the index, [n] the number of
    iterations left; [parts[i] || 0] is [nth i parts 0]. *)
Fixpoint higherFrom (parts1 parts2 : list nat) (i n : nat) : bool :=
  match n with
  | 0 => false
  | S n' =>
      let p1 := nth i parts1 0 in
      let p2 := nth i parts2 0 in
      if Nat.ltb p2 p1 then true
      else if Nat.ltb p1 p2 then false
      else higherFrom parts1 parts2 (S i) n'
  end.

Definition isHigherVersion (v1 v2 : string) : bool :=
  if negb (JS.truthy v1) || negb (JS.truthy v2) then false
  else
    let parts1 := versionParts v1 in
    let parts2 := versionParts v2 in
    higherFrom parts1 parts2 0 (Nat.max (length parts1) (length parts2)).

(** Does this manifest entry make [checkVersionMismatch] return? *)
Definition entryMismatches (normalizedDep reportedVersion : string)
  (entry : string * DepValue) : bool :=
  String.eqb (normalizePackageName entry.1) normalizedDep &&
  JS.truthy (versionOf entry.2) && JS.truthy reportedVersion &&
  negb (versionsMatch (versionOf entry.2) reportedVersion).

(** The loop of [checkVersionMismatch] over the manifest entries. *)
Fixpoint versionLoop (normalizedDep reportedVersion : string) (entries : DepMap)
  : FpResult :=
  match entries with
  | [] => mkFp false (Some VERSION_MISMATCH) "" LOW
  | entry :: rest =>
      if entryMismatches normalizedDep reportedVersion entry then
        let actualVersion := versionOf entry.2 in
        if isHigherVersion actualVersion reportedVersion then
          mkFp true (Some VERSION_MISMATCH)
            ("Actual installed version (" +:+ actualVersion +:+
             ") is newer than the reported vulnerable version (" +:+ reportedVersion +:+
             "). The vulnerability may have been patched.") HIGH
        else
          mkFp true (Some VERSION_MISMATCH)
            ("Version mismatch: OWASP reported " +:+ reportedVersion +:+
             ", but manifest shows " +:+ actualVersion +:+ ".") MEDIUM
      else versionLoop normalizedDep reportedVersion rest
  end.

Definition checkVersionMismatch (vuln : Finding) (manifestData : option Manifest)
  : FpResult :=
  match manifestData with
  | None => mkFp false (Some VERSION_MISMATCH) "" LOW
  | Some m =>
      let depName := extractPackageName (dependency vuln) in
      versionLoop (normalizePackageName depName)
        (JS.orElse (version vuln) (reportedVersion vuln)) (dependencies m)
  end.

Section Platform.

(** [process.platform], the platform the analysis runs on. *)
Variable runtimePlatform : string.

Definition envSignals : list (string * list string) :=
  [("windows", ["win32"]); ("macos", ["darwin"]); ("os x", ["darwin"]);
   ("linux", ["linux"]); ("android", ["android"]); ("ios", ["ios"])].

(** The loop over [envSignals]: the first keyword of the description whose
    platforms do not include the runtime platform. *)
Fixpoint envLoop (description : string) (signals : list (string * list string))
  : option string :=
  match signals with
  | [] => None
  | (keyword, platforms) :: rest =>
      if JS.includes description keyword
         && negb (existsb (String.eqb runtimePlatform) platforms)
      then Some keyword
      else envLoop description rest
  end.

Definition checkEnvironmentMismatch (vuln : Finding) (manifestData : option Manifest)
  : FpResult :=
  let result := mkFp false (Some ENV_MISMATCH) "" LOW in
  let description := JS.toLowerCase (description vuln) in
  match envLoop description envSignals with
  | Some keyword =>
      mkFp true (Some ENV_MISMATCH)
        ("Vulnerability is described as affecting " +:+ keyword +:+
         " environments, but the current runtime platform is " +:+ runtimePlatform +:+ ".")
        MEDIUM
  | None =>
      let manifestType := match manifestData with Some m => mtype m | None => "" end in
      let result :=
        when (String.eqb manifestType "npm" && JS.includes description "python")
          (fun _ => mkFp true (Some ENV_MISMATCH)
             "Vulnerability targets Python environments, but the project manifest indicates a Node.js application."
             MEDIUM) result in
      let result :=
        when (String.eqb manifestType "pip" && JS.includes description "node")
          (fun _ => mkFp true (Some ENV_MISMATCH)
             "Vulnerability targets Node.js environments, but the project manifest indicates a Python application."
             MEDIUM) result in
      when (String.eqb manifestType "maven" && JS.includes description "node")
        (fun _ => mkFp true (Some ENV_MISMATCH)
           "Vulnerability targets Node.js ecosystems, but the project manifest indicates a JVM application."
           MEDIUM) result
  end.

(** [Object.keys(deps).some(name => normalize(name) === normalize(depName))] *)
Definition listedIn (depName : string) (deps : DepMap) : bool :=
  existsb (fun entry =>
    String.eqb (normalizePackageName entry.1) (normalizePackageName depName)) deps.

(** [reachabilityResults?.reachabilityMap?.[vuln.cveId]] *)
Definition reachInfoOf (vuln : Finding) (reachabilityResults : ReachabilityResults)
  : option ReachabilityInfo :=
  reachabilityMap reachabilityResults !! cveId vuln.

Definition truthyFlag (o : option bool) : bool :=
  match o with Some true => true | _ => false end.

Definition checkDevOnlyDependency (vuln : Finding) (manifestData : option Manifest)
  (reachabilityResults : ReachabilityResults) : FpResult :=
  match manifestData with
  | None => mkFp false (Some DEV_ONLY) "" LOW
  | Some m =>
      let reachInfo := reachInfoOf vuln reachabilityResults in
      if match reachInfo with Some i => truthyFlag (isDevDependency i) | None => false end
      then
        mkFp true (Some DEV_ONLY)
          (dependency vuln +:+
           " is listed as a devDependency and is not included in production builds. This vulnerability does not affect production deployments.")
          HIGH
      else
        let depName := extractPackageName (dependency vuln) in
        let isInDev := listedIn depName (devDependencies m) in
        let isInProd := listedIn depName (productionDependencies m) in
        if isInDev && negb isInProd then
          mkFp true (Some DEV_ONLY)
            (depName +:+
             " is only listed in devDependencies. This vulnerability does not affect production deployments.")
            HIGH
        else mkFp false (Some DEV_ONLY) "" LOW
  end.

Definition checkReachability (vuln : Finding) (reachabilityResults : ReachabilityResults)
  : FpResult :=
  match reachInfoOf vuln reachabilityResults with
  | Some reachInfo =>
      if negb (isReachable reachInfo) then
        mkFp true (Some NON_REACHABLE)
          (JS.orElse (reason reachInfo)
             "The vulnerable code path is not reachable from the application")
          (confidence reachInfo)
      else mkFp false (Some NON_REACHABLE) "" LOW
  | None => mkFp false (Some NON_REACHABLE) "" LOW
  end.

Definition checkUnusedTransitive (vuln : Finding) (manifestData : option Manifest)
  (reachabilityResults : ReachabilityResults) : FpResult :=
  match manifestData with
  | None => mkFp false (Some UNUSED_TRANSITIVE) "" LOW
  | Some m =>
      match reachInfoOf vuln reachabilityResults with
      | Some reachInfo =>
          if negb (truthyFlag (isDirect reachInfo))
             && negb (bool_decide (confidence reachInfo = HIGH))
          then
            let depName := extractPackageName (dependency vuln) in
            if negb (listedIn depName (dependencies m)) then
              mkFp true (Some UNUSED_TRANSITIVE)
                (depName +:+
                 " is a transitive dependency not directly declared in the project. It may be pulled in by another dependency but might not be actively used.")
                MEDIUM
            else mkFp false (Some UNUSED_TRANSITIVE) "" LOW
          else mkFp false (Some UNUSED_TRANSITIVE) "" LOW
      | None => mkFp false (Some UNUSED_TRANSITIVE) "" LOW
      end
  end.

(** The chain of checks: the first one that fires is returned. *)
Definition analyzeVulnerability (vuln : Finding) (manifestData : option Manifest)
  (reachabilityResults : ReachabilityResults) : FpResult :=
  let versionCheck := checkVersionMismatch vuln manifestData in
  if isFalsePositive versionCheck then versionCheck else
  let envCheck := checkEnvironmentMismatch vuln manifestData in
  if isFalsePositive envCheck then envCheck else
  let devCheck := checkDevOnlyDependency vuln manifestData reachabilityResults in
  if isFalsePositive devCheck then devCheck else
  let reachabilityCheck := checkReachability vuln reachabilityResults in
  if isFalsePositive reachabilityCheck then reachabilityCheck else
  let transitiveCheck := checkUnusedTransitive vuln manifestData reachabilityResults in
  if isFalsePositive transitiveCheck then transitiveCheck else
  mkFp false None "" LOW.

(** The body of the loop of [detectFalsePositives]. *)
Definition detectOne (manifestData : option Manifest)
  (reachabilityResults : ReachabilityResults) (vuln : Finding) : option FalsePositive :=
  let fpResult := analyzeVulnerability vuln manifestData reachabilityResults in
  if isFalsePositive fpResult then
    Some {| cve_id := cveId vuln;
            fp_dependency := formatDependency (dependency vuln) (version vuln);
            reason_code := fp_reason fpResult;
            fp_details := details fpResult;
            confidence_grade := fp_confidence fpResult;
            originalVuln := vuln |}
  else None.

Definition detectFalsePositives (owaspData : OwaspData) (manifestData : option Manifest)
  (reachabilityResults : ReachabilityResults) : list FalsePositive :=
  omap (detectOne manifestData reachabilityResults) (vulnerabilities owaspData).

End Platform.

End FalsePositiveDetector.

(** ** vulnerabilityExtractor.js and jsonGenerator.js *)

Record TrueVulnerability : Type := mkTrueVulnerability {
  tv_cve_id : string;
  tv_dependency : string;
  tv_severity : string;
  tv_description : string;
  tv_references : list string
}.

(** Modelled from the spec: analyzers/vulnerabilityExtractor.js, which the
    routes import [extractVulnerabilities] from, is not among the sources.
    The routes call it on the report and on the false positives found; by the
    specification a finding for which no check fires is a true vulnerability,
    and the partitioner splits the findings into the two buckets. The findings
    that are not the [originalVuln] of a false positive are kept, in report
    order. *)
Definition trueFindings (owaspData : OwaspData) (falsePositives : list FalsePositive)
  : list Finding :=
  filter (fun vuln => vuln ∉ map originalVuln falsePositives) (vulnerabilities owaspData).

(** Modelled from the spec: the [TrueVulnerability] variant of a finding
    (cveId, dependency, severity, description, references). *)
Definition toTrueVulnerability (vuln : Finding) : TrueVulnerability :=
  {| tv_cve_id := cveId vuln;
     tv_dependency := dependency vuln;
     tv_severity := severity vuln;
     tv_description := description vuln;
     tv_references := references vuln |}.

(** Modelled from the spec: see [trueFindings]. *)
Definition extractVulnerabilities (owaspData : OwaspData)
  (falsePositives : list FalsePositive) : list TrueVulnerability :=
  map toTrueVulnerability (trueFindings owaspData falsePositives).

Module JsonGenerator.

Record FormattedFalsePositive : Type := mkFormattedFp {
  out_cve_id : string;
  out_dependency : string;
  out_reason : option Reason;
  out_details : string;
  out_confidence : Confidence
}.

Definition formatFalsePositives (falsePositives : list FalsePositive)
  : list FormattedFalsePositive :=
  map (fun fp =>
         {| out_cve_id := cve_id fp;
            out_dependency := fp_dependency fp;
            out_reason := reason_code fp;
            out_details := fp_details fp;
            out_confidence := confidence_grade fp |}) falsePositives.

(** [references?.slice(0, 3) || []] is the only field that changes. *)
Definition formatTrueVulnerabilities (vulnerabilities : list TrueVulnerability)
  : list TrueVulnerability :=
  map (fun vuln =>
         {| tv_cve_id := tv_cve_id vuln;
            tv_dependency := tv_dependency vuln;
            tv_severity := tv_severity vuln;
            tv_description := tv_description vuln;
            tv_references := firstn 3 (tv_references vuln) |}) vulnerabilities.

(** *** The false-positive rate, on binary64 numbers *)

(** A count as a JavaScript number. *)
Definition toNumber (n : nat) : float :=
  PrimFloat.of_uint63 (Uint63.of_Z (Z.of_nat n)).

(** [Math.round] of a finite number: the nearest integer, a tie going up,
    computed exactly from sign, mantissa and exponent. *)
Definition Math_round (x : float) : Z :=
  match Prim2SF x with
  | S754_finite s m e =>
      let twice := ((if s then -2 else 2) * Z.pos m)%Z in
      if (0 <=? e)%Z then ((twice * 2 ^ e + 1) / 2)%Z
      else ((twice + 2 ^ (- e)) / 2 ^ (1 - e))%Z
  | _ => 0%Z
  end.

Definition calculateFpRate (fpCount trueCount : nat) : Z :=
  let total := fpCount + trueCount in
  if Nat.eqb total 0 then 0%Z
  else Math_round (PrimFloat.mul (PrimFloat.div (toNumber fpCount) (toNumber total)) 100%float).

(** *** The risk score *)

(** [weights[severity] || 1] *)
Definition weightOf (severity : string) : nat :=
  if String.eqb severity "CRITICAL" then 25
  else if String.eqb severity "HIGH" then 15
  else if String.eqb severity "MEDIUM" then 5
  else if String.eqb severity "LOW" then 1
  else 1.

(** The summand of one vulnerability in the loop of [calculateRiskScore]. *)
Definition riskWeight (vuln : TrueVulnerability) : nat :=
  weightOf (JS.toUpperCase (JS.orElse (tv_severity vuln) "LOW")).

Definition calculateRiskScore (vulnerabilities : list TrueVulnerability) : nat :=
  if Nat.eqb (length vulnerabilities) 0 then 0
  else Nat.min 100 (fold_left (fun score vuln => score + riskWeight vuln) vulnerabilities 0).

(** *** The summary *)

Record SeverityCounts : Type := mkCounts {
  critical : nat; high : nat; medium : nat; low : nat
}.

Definition countSeverity (counts : SeverityCounts) (vuln : TrueVulnerability)
  : SeverityCounts :=
  let severity := JS.toLowerCase (JS.orElse (tv_severity vuln) "low") in
  if String.eqb severity "critical"
  then mkCounts (S (critical counts)) (high counts) (medium counts) (low counts)
  else if String.eqb severity "high"
  then mkCounts (critical counts) (S (high counts)) (medium counts) (low counts)
  else if String.eqb severity "medium"
  then mkCounts (critical counts) (high counts) (S (medium counts)) (low counts)
  else if String.eqb severity "low"
  then mkCounts (critical counts) (high counts) (medium counts) (S (low counts))
  else counts.

Definition reasonName (r : option Reason) : string :=
  match r with
  | Some VERSION_MISMATCH => "VERSION_MISMATCH"
  | Some NON_REACHABLE => "NON_REACHABLE"
  | Some ENV_MISMATCH => "ENV_MISMATCH"
  | Some UNUSED_TRANSITIVE => "UNUSED_TRANSITIVE"
  | Some DEV_ONLY => "DEV_ONLY"
  | None => "UNKNOWN"
  end.

Definition countReason (counts : gmap string nat) (fp : FalsePositive)
  : gmap string nat :=
  let reason := reasonName (reason_code fp) in
  <[reason := default 0 (counts !! reason) + 1]> counts.

Record Summary : Type := mkSummary {
  total_scanned : nat;
  false_positive_rate : Z;
  severity_breakdown : SeverityCounts;
  false_positive_reasons : gmap string nat;
  risk_score : nat;
  requires_immediate_action : bool
}.

Definition generateSummary (falsePositives : list FalsePositive)
  (trueVulnerabilities : list TrueVulnerability) : Summary :=
  let severityCounts := fold_left countSeverity trueVulnerabilities (mkCounts 0 0 0 0) in
  {| total_scanned := length falsePositives + length trueVulnerabilities;
     false_positive_rate :=
       calculateFpRate (length falsePositives) (length trueVulnerabilities);
     severity_breakdown := severityCounts;
     false_positive_reasons := fold_left countReason falsePositives ∅;
     risk_score := calculateRiskScore trueVulnerabilities;
     requires_immediate_action :=
       Nat.ltb 0 (critical severityCounts) || Nat.ltb 0 (high severityCounts) |}.

Record Metadata : Type := mkMetadata {
  analysis_timestamp : string;
  project_name : string;
  tool_version : string;
  owasp_report_name : string;
  total_vulnerabilities_scanned : nat;
  false_positives_identified : nat;
  true_vulnerabilities_found : nat
}.

Record Output : Type := mkOutput {
  false_positives : list FormattedFalsePositive;
  true_vulnerabilities : list TrueVulnerability;
  metadata : Metadata;
  analysis_metadata : Metadata;
  summary : Summary
}.

(** The [metadata] argument of [generateJsonOutput]. *)
Record MetadataInput : Type := mkMetadataInput {
  projectName : string;
  owaspReportName : string
}.

Section Clock.

(** [new Date().toISOString()] at the time of the call. *)
Variable now : string.

Definition generateJsonOutput (falsePositives : list FalsePositive)
  (trueVulnerabilities : list TrueVulnerability) (metadata : MetadataInput) : Output :=
  let enrichedMetadata :=
    {| analysis_timestamp := now;
       project_name := JS.orElse (projectName metadata) "Unknown Project";
       tool_version := "1.0.0";
       owasp_report_name := JS.orElse (owaspReportName metadata) "Unknown";
       total_vulnerabilities_scanned := length falsePositives + length trueVulnerabilities;
       false_positives_identified := length falsePositives;
       true_vulnerabilities_found := length trueVulnerabilities |} in
  {| false_positives := formatFalsePositives falsePositives;
     true_vulnerabilities := formatTrueVulnerabilities trueVulnerabilities;
     metadata := enrichedMetadata;
     analysis_metadata := enrichedMetadata;
     summary := generateSummary falsePositives trueVulnerabilities |}.

End Clock.

End JsonGenerator.

(** ** The analysis route *)

Import FalsePositiveDetector JsonGenerator.

Section Pipeline.

Variable runtimePlatform : string.
Variable now : string.

(** The body of [POST /api/analyze] once the uploads are parsed. *)
Definition analyze (owaspData : OwaspData) (manifestData : option Manifest)
  (callGraph : option CallGraph) (owaspReportName : string) : Output :=
  let reachabilityResults := analyzeReachability owaspData manifestData callGraph in
  let falsePositives :=
    detectFalsePositives runtimePlatform owaspData manifestData reachabilityResults in
  let trueVulnerabilities := extractVulnerabilities owaspData falsePositives in
  generateJsonOutput now falsePositives trueVulnerabilities
    {| projectName :=
         JS.orElse (match manifestData with Some m => mname m | None => "" end)
           "Unknown Project";
       owaspReportName := owaspReportName |}.

End Pipeline.

(** ** Notions of the specification *)

(** Either string is a prefix of the other. *)
Definition prefixRelated (a b : string) : Prop :=
  (exists rest, a = b +:+ rest) \/ (exists rest, b = a +:+ rest).

(** A node references the dependency when its name, or without a name its
    id, normalizes to the normalized dependency name. *)
Definition nodeReferences (normalized : string) (node : Node) : Prop :=
  normalizePackageName (nodeLabel node) = normalized.

Definition containsSubstring (s sub : string) : Prop :=
  exists a b, s = a +:+ sub +:+ b.

(** An edge references the dependency when its normalized source or target
    contains the normalized dependency name. *)
Definition edgeReferences (normalized : string) (edge : Edge) : Prop :=
  containsSubstring
    (normalizePackageName (JS.orElse (edge_from edge) (JS.orElse (edge_source edge) "")))
    normalized \/
  containsSubstring
    (normalizePackageName (JS.orElse (edge_to edge) (JS.orElse (edge_target edge) "")))
    normalized.

(** The weight table in the words of the specification: CRITICAL 25, HIGH 15,
    MEDIUM 5, LOW 1, any other or missing severity 1; the severity is read
    without regard to letter case. *)
Definition severityWeight (severity : string) : nat :=
  let s := JS.toUpperCase severity in
  if String.eqb s "CRITICAL" then 25
  else if String.eqb s "HIGH" then 15
  else if String.eqb s "MEDIUM" then 5
  else 1.

(** "Component-wise numerically greater": at the first component where the
    two versions differ the first one is larger, a missing component
    counting as zero. *)
Definition componentwiseGreater (parts1 parts2 : list nat) : Prop :=
  exists i, nth i parts2 0 < nth i parts1 0 /\
            forall j, j < i -> nth j parts1 0 = nth j parts2 0.

(** The last finding of the list that carries the identifier. *)
Definition lastWithCve (c : string) (findings : list Finding) : option Finding :=
  last (filter (fun vuln => cveId vuln = c) findings).



(** ** Sample reports and manifests *)

(** A production dependency and a development dependency reported under the
    same CVE. *)
Definition shopManifest : Manifest :=
  mkManifest "shop" "npm"
    [("express", InfoObject (mkDepInfo "4.18.0" false false));
     ("jest", InfoObject (mkDepInfo "29.0.0" true false))]
    [("express", InfoString "4.18.0")]
    [("jest", InfoString "29.0.0")].

Definition expressFinding : Finding :=
  mkFinding "CVE-2022-0001" "express" "4.18.0" "4.18.0" "CRITICAL" "" [] "src/server.js".



Definition fixtureFinding : Finding :=
  mkFinding "CVE-2021-1111" "lodash" "4.17.21" "4.17.21" "HIGH" "" []
    "src/test/fixtures/vuln.js".

Definition lodashManifest : Manifest :=
  mkManifest "app" "npm"
    [("lodash", InfoObject (mkDepInfo "4.17.21" false false))]
    [("lodash", InfoString "4.17.21")] [].

Definition lodashGraph : CallGraph :=
  mkCallGraph (Some [mkNode "main" ""; mkNode "lodash" ""])
    None (Some [mkEdge "main" "" "lodash" ""]) None.

Definition jestManifest : Manifest :=
  mkManifest "app" "npm"
    [("jest", InfoObject (mkDepInfo "29.0.0" true false))]
    [] [("jest", InfoString "29.0.0")].

(** ** Further functions of the sources *)

(** *** reachabilityAnalyzer.js: the exported helpers *)

Definition isProductionDependency (depName : string) (manifestData : option Manifest)
  : bool :=
  match manifestData with
  | None => true
  | Some m => isSome (findDependencyMatch depName (productionDependencies m))
  end.

Definition getReachabilityScore (reachabilityInfo : option ReachabilityInfo) : nat :=
  match reachabilityInfo with
  | None => 50
  | Some i =>
      let score := 50 in
      let score := if truthyFlag (isDirect i) then score + 30 else score in
      let score := if negb (truthyFlag (isDevDependency i)) then score + 15 else score in
      let score := if bool_decide (confidence i = HIGH) then score + 5 else score in
      Nat.min 100 (Nat.max 0 score)
  end.

(** *** jsonGenerator.js: validateJsonOutput *)

Record ValidationResult : Type := mkValidation {
  valid : bool;
  errors : list string
}.

(** [if (!field) errors.push(message)] *)
Definition missing (present : bool) (message : string) : list string :=
  if present then [] else [message].

(** The output is typed: the two arrays are arrays and the metadata object
    is present, so the first three tests of the source cannot fail and only
    the tests on fields remain. *)
Definition validateJsonOutput (output : Output) : ValidationResult :=
  let errors :=
    missing (JS.truthy (analysis_timestamp (metadata output)))
      "Missing analysis_timestamp in metadata" ++
    missing (JS.truthy (project_name (metadata output)))
      "Missing project_name in metadata" in
  let errors :=
    errors ++
    flat_map (fun fp =>
      missing (JS.truthy (out_cve_id fp)) "False positive missing cve_id" ++
      missing (JS.truthy (out_dependency fp)) "False positive missing dependency" ++
      missing (isSome (out_reason fp)) "False positive missing reason")
      (false_positives output) in
  let errors :=
    errors ++
    flat_map (fun vuln =>
      missing (JS.truthy (tv_cve_id vuln)) "Vulnerability missing cve_id" ++
      missing (JS.truthy (tv_dependency vuln)) "Vulnerability missing dependency" ++
      missing (JS.truthy (tv_severity vuln)) "Vulnerability missing severity")
      (true_vulnerabilities output) in
  {| valid := Nat.eqb (length errors) 0; errors := errors |}.

(** *** groqService.js: the client and the retry loop of generateLLMReport *)

Module GroqService.

(** What one call of [client.chat.completions.create] comes to: it rejects
    with an error (its [message], empty when there is none), or resolves with
    [choices[0]?.message?.content] (empty when absent) and
    [usage?.total_tokens || 0]. *)
Inductive Outcome : Type :=
| Rejects (message : string)
| Resolves (content : string) (total_tokens : nat).

(** The effects of the loop, in the order they happen. *)
Inductive Event : Type :=
| Request (attempt : nat)
| Sleep (ms : nat).

Record Report : Type := mkReport {
  report_content : string;
  report_model : string;
  generated_at : string;
  tokens_used : nat;
  report_error : option string
}.

(** The test of [getGroqClient] on [(process.env.GROQ_API_KEY || '').trim()]. *)
Definition keyRejected (envKey : string) : bool :=
  let apiKey := JS.trim envKey in
  negb (JS.truthy apiKey)
  || String.eqb apiKey "your_groq_api_key_here"
  || negb (JS.startsWith apiKey "gsk_").

(** [groqClient] is the module variable that caches the client: [true] once
    it was created. The answer is the error thrown or the new state. *)
Definition getGroqClient (groqClient : bool) (envKey : string) : string + bool :=
  if groqClient then inr true
  else if keyRejected envKey
  then inl "GROQ_API_KEY is not configured. Please set a valid API key in .env file."
  else inr true.

Section Service.

(** [new Date().toISOString()]. *)
Variable now : string.

(** The markdown text [generateFallbackReport] builds from the analysis; no
    statement below depends on its wording. *)
Variable fallbackContent : string.

(** The outcome of the request of each attempt. *)
Variable api : nat -> Outcome.

Definition maxRetries : nat := 3.

(** The object [generateFallbackReport] returns; [lastError] is the message
    of the error it is given. *)
Definition generateFallbackReport (lastError : option string) : Report :=
  {| report_content := fallbackContent;
     report_model := "fallback";
     generated_at := now;
     tokens_used := 0;
     report_error :=
       Some (JS.orElse (match lastError with Some message => message | None => "" end)
               "Unknown error") |}.

(** The [for] loop: [attempt] runs from 1, [fuel] is the number of attempts
    left ([attempt + fuel = maxRetries + 1]); the [catch] block records the
    error and sleeps [2^attempt * 1000] ms unless the attempt was the last. *)
Fixpoint attempts (attempt fuel : nat) (lastError : option string) (trace : list Event)
  : Report * list Event :=
  match fuel with
  | 0 => (generateFallbackReport lastError, trace)
  | S fuel' =>
      let trace := trace ++ [Request attempt] in
      let caught (message : string) :=
        let trace :=
          if Nat.ltb attempt maxRetries
          then trace ++ [Sleep (2 ^ attempt * 1000)] else trace in
        attempts (S attempt) fuel' (Some message) trace in
      match api attempt with
      | Rejects message => caught message
      | Resolves content total_tokens =>
          if JS.truthy content then
            ({| report_content := content;
                report_model := "llama-3.3-70b-versatile";
                generated_at := now;
                tokens_used := total_tokens;
                report_error := None |}, trace)
          else caught "Empty response from Groq API"
      end
  end.

Definition generateLLMReport (groqClient : bool) (envKey : string)
  : (string + Report) * list Event :=
  match getGroqClient groqClient envKey with
  | inl thrown => (inl thrown, [])
  | inr _ =>
      let '(report, trace) := attempts 1 maxRetries None [] in
      (inr report, trace)
  end.

End Service.

End GroqService.

(** *** Notions used by the further properties *)

Import GroqService.

(** An entry the matcher passes over. *)
Definition unrelated (normalizedSearch : string) (entry : string * DepValue) : Prop :=
  JS.includes (normalizePackageName entry.1) normalizedSearch = false /\
  JS.includes normalizedSearch (normalizePackageName entry.1) = false.

(** A marker counts when it is a whole segment after a separator: followed
    by the same separator or by the end of the path. *)
Definition markerSegment (lowered sep marker : string) : Prop :=
  exists a b, lowered = a +:+ sep +:+ marker +:+ b /\
              (b = "" \/ exists b', b = sep +:+ b').


(** A signal hits when the description contains its keyword and the runtime
    platform is none of its platforms. *)
Definition signalHits (runtimePlatform description : string)
  (signal : string * list string) : bool :=
  JS.includes description signal.1
  && negb (existsb (String.eqb runtimePlatform) signal.2).


(** The guard of the push on [directDependencies] in the second loop. *)
Definition isProductionOnly (m : Manifest) (vuln : Finding) : bool :=
  let depName := ReachabilityAnalyzer.extractPackageName (dependency vuln) in
  negb (isSome (findDependencyMatch depName (devDependencies m)))
  && isSome (findDependencyMatch depName (productionDependencies m)).

(** No entry of the dependency map matches the finding. *)
Definition isUndeclared (m : Manifest) (vuln : Finding) : bool :=
  negb (isSome (findDependencyMatch
                  (ReachabilityAnalyzer.extractPackageName (dependency vuln))
                  (dependencies m))).

(** The severity class of a true vulnerability in the histogram. *)
Definition severityClass (vuln : TrueVulnerability) : string :=
  JS.toLowerCase (JS.orElse (tv_severity vuln) "low").

(** Critical or high: what [requires_immediate_action] looks for. *)
Definition isUrgent (vuln : TrueVulnerability) : bool :=
  String.eqb (severityClass vuln) "critical" || String.eqb (severityClass vuln) "high".

(** The message the [catch] block records for an attempt, if it fails. *)
Definition failure (o : Outcome) : option string :=
  match o with
  | Rejects message => Some message
  | Resolves content _ =>
      if JS.truthy content then None else Some "Empty response from Groq API"
  end.

(** The report of an attempt that succeeds. *)
Definition answer (now : string) (o : Outcome) : Report :=
  match o with
  | Rejects _ => mkReport "" "llama-3.3-70b-versatile" now 0 None
  | Resolves content total_tokens =>
      mkReport content "llama-3.3-70b-versatile" now total_tokens None
  end.


(** * Properties *)

(** ** The embedding on the examples of the documentation *)

Example normalize_scoped : normalizePackageName "@Babel/Core-js" = "corejs".
Proof. reflexivity. Qed.
Example normalize_plain : normalizePackageName "Lodash_Merge" = "lodashmerge".
Proof. reflexivity. Qed.
Example clean_caret : cleanVersionString "^4.17.21" = "4.17.21".
Proof. reflexivity. Qed.
Example clean_range : cleanVersionString ">= 1.2.0 " = "1.2.0".
Proof. reflexivity. Qed.
Example versions_prefix : versionsMatch "4.17" "4.17.15" = true.
Proof. reflexivity. Qed.
Example extract_jar : ReachabilityAnalyzer.extractPackageName "lodash-4.17.21.jar" = "lodash".
Proof. reflexivity. Qed.
Example extract_maven :
  ReachabilityAnalyzer.extractPackageName "org.apache:commons-lang3:3.9" = "commons-lang3".
Proof. reflexivity. Qed.
Example extract_npm : ReachabilityAnalyzer.extractPackageName "express@4.18.0" = "express".
Proof. reflexivity. Qed.
Example extract_scoped :
  ReachabilityAnalyzer.extractPackageName "@babel/core@7.1.0" = "@babel/core".
Proof. reflexivity. Qed.
Example classify_fixture :
  ReachabilityAnalyzer.classifyPath "src/test/fixtures/vuln.js" = non_prod.
Proof. reflexivity. Qed.
Example classify_latest :
  ReachabilityAnalyzer.classifyPath "src/latest/index.js" = prod.
Proof. reflexivity. Qed.
Example classify_empty : ReachabilityAnalyzer.classifyPath "" = unknown.
Proof. reflexivity. Qed.
Example higher_2_0_0 : FalsePositiveDetector.isHigherVersion "2.0.0" "1.5.0" = true.
Proof. reflexivity. Qed.
Example higher_1_0_0 : FalsePositiveDetector.isHigherVersion "1.0.0" "1.5.0" = false.
Proof. reflexivity. Qed.
Example higher_padded : FalsePositiveDetector.isHigherVersion "1.5.0.1" "1.5" = true.
Proof. reflexivity. Qed.
Example higher_rc : FalsePositiveDetector.isHigherVersion "v1.10-rc2" "1.9" = true.
Proof. reflexivity. Qed.
Example rate_half : JsonGenerator.calculateFpRate 1 1 = 50%Z.
Proof. reflexivity. Qed.
Example rate_third : JsonGenerator.calculateFpRate 1 2 = 33%Z.
Proof. reflexivity. Qed.
Example rate_eighth : JsonGenerator.calculateFpRate 1 7 = 13%Z.
Proof. reflexivity. Qed.
Example rate_all : JsonGenerator.calculateFpRate 4 0 = 100%Z.
Proof. reflexivity. Qed.
Example extract_scoped_detector :
  FalsePositiveDetector.extractPackageName "@babel/core@7.1.0" = "@babel/core@7.1.0".
Proof. reflexivity. Qed.
Example scenario_already_patched :
  let vuln := mkFinding "CVE-2021-1111" "lodash" "4.17.15" "4.17.15" "HIGH" "" [] "" in
  let manifest :=
    mkManifest "app" "npm" [("lodash", InfoObject (mkDepInfo "4.17.21" false false))]
      [("lodash", InfoString "4.17.21")] [] in
  analyzeVulnerability "linux" vuln (Some manifest)
    (analyzeReachability (mkOwasp [vuln]) (Some manifest) None) =
  mkFp true (Some VERSION_MISMATCH)
    "Actual installed version (4.17.21) is newer than the reported vulnerable version (4.17.15). The vulnerability may have been patched."
    HIGH.
Proof. reflexivity. Qed.
Example scenario_no_evidence :
  let record :=
    reachabilityInfoOf None None
      (mkFinding "CVE-2021-1111" "lodash" "4.17.15" "4.17.15" "HIGH" "" [] "") in
  isReachable record = true /\ confidence record = LOW /\
  reason record = "No manifest provided - reachability assumed" /\
  pathClassification record = unknown.
Proof. repeat split; reflexivity. Qed.
Example scenario_fixture_without_manifest :
  let record :=
    reachabilityInfoOf None None
      (mkFinding "CVE-2021-1111" "lodash" "4.17.15" "4.17.15" "HIGH" "" []
         "src/test/fixtures/vuln.js") in
  isReachable record = true /\ confidence record = MEDIUM /\
  reason record = "Vulnerability exists in non-production/test/example path".
Proof. repeat split; reflexivity. Qed.
Example summary_counts :
  let vulns :=
    [mkTrueVulnerability "CVE-1" "a" "CRITICAL" "" []; mkTrueVulnerability "CVE-2" "b" "high" "" [];
     mkTrueVulnerability "CVE-3" "c" "UNKNOWN" "" []; mkTrueVulnerability "CVE-4" "d" "" "" []] in
  severity_breakdown (generateSummary [] vulns) = mkCounts 1 1 0 1 /\
  risk_score (generateSummary [] vulns) = 42 /\
  requires_immediate_action (generateSummary [] vulns) = true.
Proof. repeat split; reflexivity. Qed.

(** ** String facts *)

Lemma startsWith_refl (s : string) : JS.startsWith s s = true.
Proof.
  induction s as [|c s IH]; simpl; [reflexivity|].
  now rewrite Ascii.eqb_refl.
Qed.

(** [startsWith] decides "is a string prefix of". *)
Lemma startsWith_spec (s p : string) :
  JS.startsWith s p = true <-> exists rest, s = p +:+ rest.
Proof.
  revert s; induction p as [|a p IH]; intros s; simpl.
  - split; [intros _; now exists s | intros _; now destruct s].
  - destruct s as [|b s]; simpl.
    + split; [discriminate | intros [rest H]; discriminate].
    + rewrite andb_true_iff, Ascii.eqb_eq, IH. split.
      * intros [-> [rest ->]]. now exists rest.
      * intros [rest H]. injection H as -> ->. split; [reflexivity | now exists rest].
Qed.

Lemma existsb_Exists {A : Type} (f : A -> bool) (l : list A) :
  existsb f l = true <-> Exists (fun x => f x = true) l.
Proof.
  induction l as [|x l IH]; simpl.
  - split; [discriminate | intros H; inversion H].
  - rewrite orb_true_iff, IH. split.
    + intros [H|H]; [now left | now right].
    + intros H; inversion H; subst; [now left | now right].
Qed.

(** ** Version matching (manifestParser.js, checkVersionMismatch) *)

Lemma versionsMatch_prefix (version1 version2 : string) :
  JS.truthy version1 = true -> JS.truthy version2 = true ->
  prefixRelated (cleanVersionString version1) (cleanVersionString version2) ->
  versionsMatch version1 version2 = true.
Proof.
  intros T1 T2 H. unfold versionsMatch. rewrite T1, T2. simpl.
  destruct H as [H|H]; apply startsWith_spec in H; rewrite H;
    [rewrite orb_true_r | rewrite orb_true_r]; reflexivity.
Qed.

Lemma versionLoop_quiet (normalizedDep reportedVersion : string) (entries : DepMap) :
  Forall (fun entry => entryMismatches normalizedDep reportedVersion entry = false) entries ->
  versionLoop normalizedDep reportedVersion entries = mkFp false (Some VERSION_MISMATCH) "" LOW.
Proof.
  induction 1 as [|entry rest Hq _ IH]; simpl; [reflexivity|].
  now rewrite Hq.
Qed.

(** C10. Version matching is prefix-tolerant in both directions: two non-empty
    version strings match whenever, once cleaned of range operators and white
    space, either is a string prefix of the other; the version-mismatch check
    does not fire for a finding when every manifest entry of its dependency
    declares a version so related to the reported one; a manifest version
    4.17 does not mismatch a reported 4.17.15. *)
Theorem version_prefix_tolerance :
  (forall version1 version2 : string,
      JS.truthy version1 = true -> JS.truthy version2 = true ->
      prefixRelated (cleanVersionString version1) (cleanVersionString version2) ->
      versionsMatch version1 version2 = true) /\
  (forall (vuln : Finding) (m : Manifest),
      Forall (fun entry : string * DepValue =>
                normalizePackageName entry.1 =
                  normalizePackageName (FalsePositiveDetector.extractPackageName (dependency vuln)) ->
                prefixRelated (cleanVersionString (versionOf entry.2))
                  (cleanVersionString (JS.orElse (version vuln) (reportedVersion vuln))))
        (dependencies m) ->
      isFalsePositive (checkVersionMismatch vuln (Some m)) = false) /\
  versionsMatch "4.17" "4.17.15" = true /\
  versionsMatch "4.17.15" "4.17" = true /\
  versionsMatch "^4.17" "~4.17.15" = true.
Proof.
  split; [exact versionsMatch_prefix|].
  split; [|repeat split; reflexivity].
  intros vuln m H. unfold checkVersionMismatch.
  rewrite versionLoop_quiet; [reflexivity|].
  eapply Forall_impl; [exact H|]. intros [name info] Hrel. simpl in *.
  unfold entryMismatches. simpl.
  destruct (String.eqb_spec (normalizePackageName name)
              (normalizePackageName (FalsePositiveDetector.extractPackageName (dependency vuln))))
    as [Heq|Hne]; [|reflexivity].
  simpl.
  destruct (JS.truthy (versionOf info)) eqn:T1; [|reflexivity].
  destruct (JS.truthy (JS.orElse (version vuln) (reportedVersion vuln))) eqn:T2; [|reflexivity].
  simpl. rewrite versionsMatch_prefix; auto.
Qed.

Lemma version_prefix_tolerance_witness :
  versionsMatch "4.17.2" "^4.17" = true /\
  isFalsePositive
    (checkVersionMismatch
       (mkFinding "CVE-2021-23337" "lodash" "4.17.15" "4.17.15" "HIGH" "" [] "")
       (Some (mkManifest "app" "npm"
                [("lodash", InfoObject (mkDepInfo "4.17" false false))]
                [("lodash", InfoString "4.17")] []))) = false.
Proof.
  split.
  - apply (proj1 version_prefix_tolerance); [reflexivity | reflexivity |].
    left. exists ".2". reflexivity.
  - apply (proj1 (proj2 version_prefix_tolerance)).
    simpl. constructor; [|constructor].
    intros _. right. exists ".15". reflexivity.
Defined.

(** ** Call-graph evidence (assessCallGraphReachability) *)

Lemma includes_unfold (s sub : string) :
  JS.includes s sub =
  JS.startsWith s sub ||
  match s with EmptyString => false | String _ s' => JS.includes s' sub end.
Proof. destruct s; reflexivity. Qed.

(** [includes] decides "contains as a substring". *)
Lemma includes_spec (s sub : string) :
  JS.includes s sub = true <-> exists a b, s = a +:+ sub +:+ b.
Proof.
  induction s as [|c s IH]; rewrite includes_unfold.
  - rewrite orb_false_r, startsWith_spec. split.
    + intros [rest H]. now exists "", rest.
    + intros [[|x a] [b H]]; [now exists b | discriminate].
  - rewrite orb_true_iff, startsWith_spec, IH. split.
    + intros [[rest H] | [a [b H]]].
      * now exists "", rest.
      * exists (String c a), b. simpl. now rewrite H.
    + intros [[|x a] [b H]].
      * left. now exists b.
      * right. injection H as -> ->. now exists a, b.
Qed.

(** A boolean that decides a proposition, read off in either branch. *)
Lemma iff_branch (b : bool) (P : Prop) : (b = true <-> P) -> if b then P else ~ P.
Proof.
  destruct b; intros [Hto Hfrom]; [now apply Hto|].
  intros HP. now apply Hfrom in HP.
Qed.

Lemma referencedByNode_spec (normalized : string) (ns : list Node) :
  referencedByNode normalized ns = true <-> Exists (nodeReferences normalized) ns.
Proof.
  unfold referencedByNode. rewrite existsb_Exists.
  apply Exists_proper; [|reflexivity]. intros node.
  unfold nodeReferences. apply String.eqb_eq.
Qed.

Lemma referencedByEdge_spec (normalized : string) (es : list Edge) :
  referencedByEdge normalized es = true <-> Exists (edgeReferences normalized) es.
Proof.
  unfold referencedByEdge. rewrite existsb_Exists.
  apply Exists_proper; [|reflexivity]. intros edge.
  unfold edgeReferences, containsSubstring.
  now rewrite orb_true_iff, !includes_spec.
Qed.

(** C6. For a supplied call graph the assessor answers unreachable with HIGH
    confidence exactly when no node normalizes to the normalized dependency
    name and no edge end contains it; otherwise it answers reachable, with
    HIGH confidence when an edge references the dependency and MEDIUM when
    only a node does. *)
Theorem call_graph_evidence_mapping (vuln : Finding) (g : CallGraph) :
  let normalized :=
    normalizePackageName (ReachabilityAnalyzer.extractPackageName (dependency vuln)) in
  let byNode := Exists (nodeReferences normalized) (graphNodes g) in
  let byEdge := Exists (edgeReferences normalized) (graphEdges g) in
  exists r : CallGraphResult,
    assessCallGraphReachability vuln (Some g) = Some r /\
    ((cg_isReachable r = false /\ cg_confidence r = HIGH) <-> (~ byNode /\ ~ byEdge)) /\
    ((byNode \/ byEdge) -> cg_isReachable r = true) /\
    (byEdge -> cg_confidence r = HIGH) /\
    ((byNode /\ ~ byEdge) -> cg_confidence r = MEDIUM).
Proof.
  intros normalized byNode byEdge.
  unfold assessCallGraphReachability. fold normalized.
  pose proof (iff_branch _ _ (referencedByNode_spec normalized (graphNodes g))) as HN.
  pose proof (iff_branch _ _ (referencedByEdge_spec normalized (graphEdges g))) as HE.
  fold byNode in HN. fold byEdge in HE.
  destruct (referencedByNode normalized (graphNodes g)),
           (referencedByEdge normalized (graphEdges g));
    cbn [negb andb]; eexists; (split; [reflexivity|]);
    cbn [cg_isReachable cg_confidence];
    intuition (discriminate || congruence).
Qed.

Lemma call_graph_evidence_mapping_witness :
  exists r : CallGraphResult,
    assessCallGraphReachability
      (mkFinding "CVE-2020-8203" "lodash-4.17.15.jar" "4.17.15" "4.17.15" "HIGH" "" [] "")
      (Some (mkCallGraph (Some [mkNode "lodash" ""]) None (Some []) None)) = Some r /\
    cg_isReachable r = true /\ cg_confidence r = MEDIUM.
Proof.
  destruct (call_graph_evidence_mapping
              (mkFinding "CVE-2020-8203" "lodash-4.17.15.jar" "4.17.15" "4.17.15" "HIGH" "" [] "")
              (mkCallGraph (Some [mkNode "lodash" ""]) None (Some []) None))
    as [r [Hr [_ [Hreach [_ Hmed]]]]].
  exists r. split; [exact Hr|]. split.
  - apply Hreach. left. apply Exists_cons_hd. reflexivity.
  - apply Hmed. split.
    + apply Exists_cons_hd. reflexivity.
    + intros H. inversion H.
Defined.

(** ** The risk score (calculateRiskScore) *)

Lemma riskWeight_table (vuln : TrueVulnerability) :
  riskWeight vuln = severityWeight (tv_severity vuln).
Proof.
  unfold riskWeight, severityWeight, weightOf, JS.orElse.
  destruct (tv_severity vuln) as [|c s]; [reflexivity|].
  simpl JS.truthy. cbv iota.
  repeat (destruct (String.eqb _ _); [reflexivity|]). reflexivity.
Qed.

Lemma fold_left_score {A : Type} (f : A -> nat) (l : list A) (start : nat) :
  fold_left (fun score x => score + f x) l start = start + list_sum (map f l).
Proof.
  revert start; induction l as [|x l IH]; intros start; simpl.
  - lia.
  - rewrite IH. lia.
Qed.

(** C8. The risk score is the sum of the per-vulnerability weights (CRITICAL
    25, HIGH 15, MEDIUM 5, LOW 1, anything else or nothing 1) capped at 100:
    it never exceeds 100, five CRITICAL vulnerabilities give exactly 100 and
    the empty list gives 0. *)
Theorem risk_score_capped_sum (vulnerabilities : list TrueVulnerability) :
  calculateRiskScore vulnerabilities =
    Nat.min 100 (list_sum (map (fun vuln => severityWeight (tv_severity vuln)) vulnerabilities)) /\
  calculateRiskScore vulnerabilities <= 100 /\
  severityWeight "CRITICAL" = 25 /\ severityWeight "HIGH" = 15 /\
  severityWeight "MEDIUM" = 5 /\ severityWeight "LOW" = 1 /\
  severityWeight "UNKNOWN" = 1 /\ severityWeight "" = 1 /\
  calculateRiskScore (repeat (mkTrueVulnerability "CVE-1" "dep" "CRITICAL" "" []) 5) = 100 /\
  calculateRiskScore [] = 0.
Proof.
  assert (Hsum : calculateRiskScore vulnerabilities =
    Nat.min 100 (list_sum (map (fun vuln => severityWeight (tv_severity vuln)) vulnerabilities))).
  { unfold calculateRiskScore. destruct vulnerabilities as [|v l]; [reflexivity|].
    cbn [length Nat.eqb]. rewrite fold_left_score. cbn [Nat.add].
    f_equal. f_equal. apply map_ext. intros a. apply riskWeight_table. }
  split; [exact Hsum|]. split; [rewrite Hsum; lia|].
  repeat split; reflexivity.
Qed.

(** ** Partition of the findings (detectFalsePositives, extractVulnerabilities,
    generateJsonOutput) *)

Section Partition.

Variable runtimePlatform : string.
Variable manifestData : option Manifest.
Variable reachabilityResults : ReachabilityResults.

Let fires (vuln : Finding) : bool :=
  isFalsePositive (analyzeVulnerability runtimePlatform vuln manifestData reachabilityResults).

Let detect := detectOne runtimePlatform manifestData reachabilityResults.

Lemma detectOne_original (vuln : Finding) (fp : FalsePositive) :
  detect vuln = Some fp -> originalVuln fp = vuln /\ fires vuln = true.
Proof.
  unfold detect, detectOne, fires.
  destruct (isFalsePositive _); [|discriminate].
  intros [= <-]. split; reflexivity.
Qed.

Lemma detectOne_fires (vuln : Finding) :
  fires vuln = true -> exists fp, detect vuln = Some fp /\ originalVuln fp = vuln.
Proof.
  unfold detect, detectOne, fires. intros ->. eexists. split; reflexivity.
Qed.

(** The findings reported as false positives are those on which a check
    fires. *)
Lemma reported_iff_fires (findings : list Finding) (vuln : Finding) :
  vuln ∈ map originalVuln (omap detect findings) <-> vuln ∈ findings /\ fires vuln = true.
Proof.
  rewrite list_elem_of_fmap. split.
  - intros [fp [-> Hin]]. apply list_elem_of_omap in Hin as [v [Hv Hd]].
    apply detectOne_original in Hd as [-> Hf]. now split.
  - intros [Hin Hf]. apply detectOne_fires in Hf as [fp [Hd Ho]].
    exists fp. split; [now symmetry|]. apply list_elem_of_omap. now exists vuln.
Qed.

(** Splitting a list by a partial map and by the complement of its domain
    loses and duplicates nothing. *)
Lemma split_lengths (known findings : list Finding) :
  (forall vuln, vuln ∈ findings -> (vuln ∈ known <-> fires vuln = true)) ->
  length (omap detect findings) + length (filter (fun vuln => vuln ∉ known) findings)
  = length findings.
Proof.
  induction findings as [|v l IH]; intros Hknown; [reflexivity|].
  assert (Hl : forall vuln, vuln ∈ l -> (vuln ∈ known <-> fires vuln = true))
    by (intros vuln Hin; apply Hknown; now right).
  specialize (IH Hl).
  pose proof (Hknown v (list_elem_of_here v l)) as Hv.
  cbn [omap list_omap]. rewrite filter_cons.
  destruct (detect v) as [fp|] eqn:Hd.
  - apply detectOne_original in Hd as [_ Hf].
    destruct (decide (v ∉ known)) as [Hn|_]; [exfalso; apply Hn; now apply Hv|].
    simpl. lia.
  - assert (Hf : fires v = false).
    { destruct (fires v) eqn:Hf; [|reflexivity].
      apply detectOne_fires in Hf as [fp [Hd' _]]. congruence. }
    destruct (decide (v ∉ known)) as [_|Hn].
    + simpl. lia.
    + exfalso. apply Hn. intros Hin. apply Hv in Hin. congruence.
Qed.

(** Whatever the reachability results, a finding is reported as a false
    positive or kept as a true finding, never both, and the two lists
    together are as long as the report. *)
Lemma buckets_partition (owaspData : OwaspData) :
  let falsePositives :=
    detectFalsePositives runtimePlatform owaspData manifestData reachabilityResults in
  Forall (fun vuln =>
            if fires vuln
            then (vuln ∈ map originalVuln falsePositives) /\
                 (vuln ∉ trueFindings owaspData falsePositives)
            else (vuln ∉ map originalVuln falsePositives) /\
                 (vuln ∈ trueFindings owaspData falsePositives))
    (vulnerabilities owaspData) /\
  length falsePositives + length (trueFindings owaspData falsePositives)
    = length (vulnerabilities owaspData).
Proof.
  intros falsePositives.
  assert (Hrep : forall vuln, vuln ∈ vulnerabilities owaspData ->
            (vuln ∈ map originalVuln falsePositives <-> fires vuln = true)).
  { intros vuln Hin. unfold falsePositives, detectFalsePositives. fold detect.
    pose proof (reported_iff_fires (vulnerabilities owaspData) vuln). tauto. }
  split.
  - apply Forall_forall. intros vuln Hin.
    assert (Htrue : vuln ∈ trueFindings owaspData falsePositives <->
                    vuln ∉ map originalVuln falsePositives)
      by (unfold trueFindings; rewrite list_elem_of_filter; tauto).
    specialize (Hrep vuln Hin).
    destruct (fires vuln).
    + split; [tauto|]. rewrite Htrue. intros Hn. apply Hn. tauto.
    + assert (Hn : vuln ∉ map originalVuln falsePositives)
        by (intros H; apply Hrep in H; discriminate).
      split; [exact Hn | now apply Htrue].
  - unfold trueFindings. apply split_lengths. exact Hrep.
Qed.

End Partition.

(** C1. Partition completeness: with or without a manifest or a call graph,
    every finding of the report lands in exactly one bucket (the false
    positives when a check fires on it, the true vulnerabilities otherwise),
    and in the produced output the two arrays together are as long as the
    finding list, which is also the recorded total_vulnerabilities_scanned. *)
Theorem partition_completeness (runtimePlatform now : string) (owaspData : OwaspData)
  (manifestData : option Manifest) (callGraph : option CallGraph)
  (owaspReportName : string) :
  let reachabilityResults := analyzeReachability owaspData manifestData callGraph in
  let falsePositives :=
    detectFalsePositives runtimePlatform owaspData manifestData reachabilityResults in
  let output := analyze runtimePlatform now owaspData manifestData callGraph owaspReportName in
  Forall (fun vuln =>
            if isFalsePositive
                 (analyzeVulnerability runtimePlatform vuln manifestData reachabilityResults)
            then (vuln ∈ map originalVuln falsePositives) /\
                 (vuln ∉ trueFindings owaspData falsePositives)
            else (vuln ∉ map originalVuln falsePositives) /\
                 (vuln ∈ trueFindings owaspData falsePositives))
    (vulnerabilities owaspData) /\
  length (false_positives output) + length (true_vulnerabilities output)
    = length (vulnerabilities owaspData) /\
  total_vulnerabilities_scanned (metadata output) = length (vulnerabilities owaspData).
Proof.
  intros reachabilityResults falsePositives output.
  destruct (buckets_partition runtimePlatform manifestData reachabilityResults owaspData)
    as [Hone Hlen].
  fold falsePositives in Hone, Hlen.
  split; [exact Hone|].
  unfold output, analyze, generateJsonOutput, formatFalsePositives,
    formatTrueVulnerabilities, extractVulnerabilities.
  cbn [false_positives true_vulnerabilities metadata total_vulnerabilities_scanned].
  fold reachabilityResults. fold falsePositives.
  rewrite !length_map. split; exact Hlen.
Qed.

(** ** Direction of a version mismatch (checkVersionMismatch, isHigherVersion) *)

Lemma higherFrom_spec (parts1 parts2 : list nat) (n i : nat) :
  higherFrom parts1 parts2 i n = true <->
  exists k, i <= k < i + n /\ nth k parts2 0 < nth k parts1 0 /\
            forall j, i <= j < k -> nth j parts1 0 = nth j parts2 0.
Proof.
  revert i; induction n as [|n IH]; intros i; simpl.
  - split; [discriminate | intros [k [Hk _]]; lia].
  - destruct (Nat.ltb_spec (nth i parts2 0) (nth i parts1 0)) as [Hgt|Hle].
    + split; [intros _ | reflexivity].
      exists i. repeat split; [lia | lia | exact Hgt | intros j Hj; lia].
    + destruct (Nat.ltb_spec (nth i parts1 0) (nth i parts2 0)) as [Hlt|Hge].
      * split; [discriminate|]. intros [k [Hk [Hgt Heq]]].
        destruct (Nat.eq_dec k i) as [->|Hne]; [lia|].
        specialize (Heq i ltac:(lia)). lia.
      * rewrite IH. split; intros [k [Hk [Hgt Heq]]].
        -- exists k. repeat split; [lia | lia | exact Hgt |].
           intros j Hj. destruct (Nat.eq_dec j i) as [->|Hne]; [lia|].
           apply Heq. lia.
        -- destruct (Nat.eq_dec k i) as [->|Hne]; [lia|].
           exists k. repeat split; [lia | lia | exact Hgt |].
           intros j Hj. apply Heq. lia.
Qed.

(** [isHigherVersion] decides the component-wise order on the numeric parts. *)
Lemma isHigherVersion_spec (v1 v2 : string) :
  JS.truthy v1 = true -> JS.truthy v2 = true ->
  (isHigherVersion v1 v2 = true <->
   componentwiseGreater (versionParts v1) (versionParts v2)).
Proof.
  intros T1 T2. unfold isHigherVersion. rewrite T1, T2. cbn [negb orb].
  rewrite higherFrom_spec. unfold componentwiseGreater.
  split; intros [k H].
  - exists k. destruct H as [_ [Hgt Heq]]. split; [exact Hgt|].
    intros j Hj. apply Heq. lia.
  - destruct H as [Hgt Heq]. exists k.
    assert (k < length (versionParts v1)).
    { destruct (Nat.lt_ge_cases k (length (versionParts v1))) as [Hlt|Hge]; [exact Hlt|].
      rewrite (nth_overflow (versionParts v1) 0 Hge) in Hgt. lia. }
    repeat split; [lia | lia | exact Hgt | intros j Hj; apply Heq; lia].
Qed.

Lemma versionLoop_skip (normalizedDep reportedVersion : string) (before rest : DepMap) :
  Forall (fun entry => entryMismatches normalizedDep reportedVersion entry = false) before ->
  versionLoop normalizedDep reportedVersion (before ++ rest)
  = versionLoop normalizedDep reportedVersion rest.
Proof.
  induction 1 as [|entry before Hq _ IH]; simpl; [reflexivity|].
  now rewrite Hq.
Qed.



(** ** The dependency matcher (findDependencyMatch) *)

(** The matcher returns the first entry, in iteration order, that matches
    exactly or by containment. *)
Lemma findEntry_first (normalizedSearch : string) (before after : DepMap)
  (name : string) (info : DepValue) :
  Forall (fun entry : string * DepValue =>
            JS.includes (normalizePackageName entry.1) normalizedSearch = false /\
            JS.includes normalizedSearch (normalizePackageName entry.1) = false) before ->
  JS.includes (normalizePackageName name) normalizedSearch
  || JS.includes normalizedSearch (normalizePackageName name) = true ->
  findEntry normalizedSearch (before ++ (name, info) :: after) =
  Some (mkMatch name (versionOf info) info
          (negb (String.eqb (normalizePackageName name) normalizedSearch))).
Proof.
  intros Hbefore Hhit.
  induction Hbefore as [|[n i] before [H1 H2] _ IH]; simpl in *.
  - destruct (String.eqb _ _); [reflexivity|]. now rewrite Hhit.
  - destruct (String.eqb_spec (normalizePackageName n) normalizedSearch) as [Heq|_].
    + rewrite Heq in H1. rewrite includes_unfold, startsWith_refl in H1. discriminate.
    + now rewrite H1, H2.
Qed.

(** C4. The matcher does not let an exact match win: with react listed before
    react-dom, a search for react-dom returns the react entry as a partial
    match, although the react-dom entry matches exactly. *)
Theorem exact_match_shadowed :
  let manifestDeps := [("react", InfoString "18.2.0"); ("react-dom", InfoString "18.2.0")] in
  findDependencyMatch "react-dom" manifestDeps =
    Some (mkMatch "react" "18.2.0" (InfoString "18.2.0") true) /\
  normalizePackageName "react-dom" = normalizePackageName "react-dom" /\
  ("react-dom", InfoString "18.2.0") ∈ manifestDeps.
Proof.
  split; [reflexivity|]. split; [reflexivity|].
  apply list_elem_of_further, list_elem_of_here.
Qed.

(** ** Keys of the reachability map (analyzeReachability, the checks) *)

Lemma analyzeOne_map (manifestData : option Manifest) (callGraph : option CallGraph)
  (results : ReachabilityResults) (vuln : Finding) :
  reachabilityMap (analyzeOne manifestData callGraph results vuln) =
  <[cveId vuln := reachabilityInfoOf manifestData callGraph vuln]> (reachabilityMap results).
Proof.
  unfold analyzeOne, reachabilityInfoOf.
  destruct manifestData as [m|]; [|reflexivity].
  destruct (pushesWithManifest m vuln) as [[direct transitive] unreachable].
  reflexivity.
Qed.

Lemma lastWithCve_cons (c : string) (vuln : Finding) (findings : list Finding) :
  lastWithCve c (vuln :: findings) =
  match lastWithCve c findings with
  | Some later => Some later
  | None => if decide (cveId vuln = c) then Some vuln else None
  end.
Proof.
  unfold lastWithCve. rewrite filter_cons.
  destruct (decide (cveId vuln = c)) as [Heq|Hne]; [|now destruct (last _)].
  rewrite last_cons. now destruct (last _).
Qed.

Lemma fold_analyzeOne_lookup (manifestData : option Manifest)
  (callGraph : option CallGraph) (findings : list Finding)
  (results : ReachabilityResults) (c : string) :
  reachabilityMap (fold_left (analyzeOne manifestData callGraph) findings results) !! c =
  match lastWithCve c findings with
  | Some vuln => Some (reachabilityInfoOf manifestData callGraph vuln)
  | None => reachabilityMap results !! c
  end.
Proof.
  revert results; induction findings as [|vuln findings IH]; intros results;
    [reflexivity|].
  cbn [fold_left]. rewrite IH, lastWithCve_cons, analyzeOne_map.
  destruct (lastWithCve c findings); [reflexivity|].
  destruct (decide (cveId vuln = c)) as [<-|Hne].
  - apply lookup_insert_eq.
  - now apply lookup_insert_ne.
Qed.





(** ** Findings in non-production paths (analyzeReachability) *)

Lemma when_true {A : Type} (step : A -> A) (x : A) : when true step x = step x.
Proof. reflexivity. Qed.

Lemma when_false {A : Type} (step : A -> A) (x : A) : when false step x = x.
Proof. reflexivity. Qed.

(** Case analysis on every guard that decides a branch of the goal. *)
Ltac split_branches :=
  repeat match goal with
         | |- context [match ?x with _ => _ end] => destruct x
         | |- context [if ?b then _ else _] => destruct b
         end.

(** C3, as the code has it. With a manifest, a finding whose path classifies
    non_prod gets a record that says unreachable, whatever the call graph
    says and even for a direct production dependency; the confidence is HIGH,
    unless the matched manifest entry is optional and the dependency has no
    production match, in which case the later rule for optional dependencies
    lowers it to MEDIUM. *)
Theorem non_prod_path_dominance (m : Manifest) (callGraph : option CallGraph)
  (vuln : Finding) :
  classifyPath (filePath vuln) = non_prod ->
  let depName := ReachabilityAnalyzer.extractPackageName (dependency vuln) in
  let directMatch := findDependencyMatch depName (dependencies m) in
  let prodMatch := findDependencyMatch depName (productionDependencies m) in
  let record := reachabilityInfoOf (Some m) callGraph vuln in
  isReachable record = false /\
  confidence record =
    (if matchIsOptional directMatch && negb (isSome prodMatch) then MEDIUM else HIGH) /\
  (isSome prodMatch = true -> confidence record = HIGH).
Proof.
  intros Hpath depName directMatch prodMatch record.
  assert (Hrec : isReachable record = false /\
                 confidence record =
                 (if matchIsOptional directMatch && negb (isSome prodMatch)
                  then MEDIUM else HIGH)).
  { unfold record, reachabilityInfoOf, infoWithManifest.
    fold depName. fold directMatch. fold prodMatch.
    destruct (matchIsOptional directMatch && negb (isSome prodMatch));
      [rewrite when_true; split; reflexivity | rewrite when_false].
    match goal with
    | |- context [when (bool_decide (pathClassification ?i = non_prod))] =>
        replace (pathClassification i) with (classifyPath (filePath vuln))
    end.
    - rewrite Hpath. split; reflexivity.
    - unfold when. split_branches; reflexivity. }
  destruct Hrec as [Hreach Hconf]. split; [exact Hreach|]. split; [exact Hconf|].
  intros Hprod. rewrite Hconf, Hprod, andb_false_r. reflexivity.
Qed.

Lemma non_prod_path_dominance_witness :
  let record := reachabilityInfoOf (Some lodashManifest) (Some lodashGraph) fixtureFinding in
  isReachable record = false /\ confidence record = HIGH.
Proof.
  destruct (non_prod_path_dominance lodashManifest (Some lodashGraph) fixtureFinding eq_refl)
    as [Hreach [_ Hprod]].
  split; [exact Hreach | exact (Hprod eq_refl)].
Defined.

(** C3, as stated, fails: an optional dependency outside the production
    dependencies, found in a test path, gets MEDIUM confidence, not HIGH. *)
Lemma non_prod_path_confidence_fails :
  let manifest :=
    mkManifest "app" "npm"
      [("fsevents", InfoObject (mkDepInfo "2.3.2" false true))] [] [] in
  let vuln :=
    mkFinding "CVE-2023-45311" "fsevents" "2.3.2" "2.3.2" "HIGH" "" []
      "src/test/fixtures/vuln.js" in
  let record := reachabilityInfoOf (Some manifest) None vuln in
  classifyPath (filePath vuln) = non_prod /\
  isReachable record = false /\
  confidence record = MEDIUM.
Proof. repeat split; reflexivity. Qed.

(** ** Development-only dependencies (analyzeVulnerability) *)

(** C2, as the code has it. A finding whose dependency is listed in the
    devDependencies and not in the productionDependencies is classified
    DEV_ONLY at HIGH confidence whatever its severity and whatever the
    reachability results, provided neither of the two earlier checks of the
    chain, version mismatch and environment mismatch, fires on it. *)
Theorem dev_only_dominance (runtimePlatform : string) (vuln : Finding) (m : Manifest)
  (reachabilityResults : ReachabilityResults) :
  let depName := FalsePositiveDetector.extractPackageName (dependency vuln) in
  listedIn depName (devDependencies m) = true ->
  listedIn depName (productionDependencies m) = false ->
  isFalsePositive (checkVersionMismatch vuln (Some m)) = false ->
  isFalsePositive (checkEnvironmentMismatch runtimePlatform vuln (Some m)) = false ->
  let verdict := analyzeVulnerability runtimePlatform vuln (Some m) reachabilityResults in
  isFalsePositive verdict = true /\
  fp_reason verdict = Some DEV_ONLY /\
  fp_confidence verdict = HIGH.
Proof.
  intros depName Hdev Hprod Hversion Henv verdict.
  unfold verdict, analyzeVulnerability. rewrite Hversion, Henv.
  unfold checkDevOnlyDependency. fold depName. rewrite Hdev, Hprod.
  destruct (reachInfoOf vuln reachabilityResults) as [i|];
    [destruct (truthyFlag (isDevDependency i))|]; repeat split; reflexivity.
Qed.

Lemma dev_only_dominance_witness :
  let vuln := mkFinding "CVE-2022-0002" "jest" "29.0.0" "29.0.0" "CRITICAL" "" [] "" in
  let verdict :=
    analyzeVulnerability "linux" vuln (Some jestManifest)
      (analyzeReachability (mkOwasp [vuln]) (Some jestManifest) None) in
  isFalsePositive verdict = true /\
  fp_reason verdict = Some DEV_ONLY /\
  fp_confidence verdict = HIGH.
Proof.
  exact (dev_only_dominance "linux"
           (mkFinding "CVE-2022-0002" "jest" "29.0.0" "29.0.0" "CRITICAL" "" [] "")
           jestManifest
           (analyzeReachability
              (mkOwasp [mkFinding "CVE-2022-0002" "jest" "29.0.0" "29.0.0" "CRITICAL" "" [] ""])
              (Some jestManifest) None)
           eq_refl eq_refl eq_refl eq_refl).
Defined.

(** C2, as stated, fails: a development-only dependency whose manifest
    version differs from the reported one is classified VERSION_MISMATCH, the
    first check of the chain, not DEV_ONLY. *)
Lemma dev_only_not_always :
  let vuln := mkFinding "CVE-2022-0002" "jest" "28.1.0" "28.1.0" "CRITICAL" "" [] "" in
  let verdict :=
    analyzeVulnerability "linux" vuln (Some jestManifest)
      (analyzeReachability (mkOwasp [vuln]) (Some jestManifest) None) in
  listedIn (FalsePositiveDetector.extractPackageName (dependency vuln))
    (devDependencies jestManifest) = true /\
  listedIn (FalsePositiveDetector.extractPackageName (dependency vuln))
    (productionDependencies jestManifest) = false /\
  isFalsePositive verdict = true /\
  fp_reason verdict = Some VERSION_MISMATCH.
Proof. repeat split; reflexivity. Qed.

(** ** Analysis without a manifest; the false-positive rate *)

Lemma checkEnvironmentMismatch_reason (runtimePlatform : string) (vuln : Finding)
  (manifestData : option Manifest) :
  fp_reason (checkEnvironmentMismatch runtimePlatform vuln manifestData) = Some ENV_MISMATCH.
Proof.
  unfold checkEnvironmentMismatch, when.
  destruct (envLoop _ _ _); [reflexivity|].
  split_branches; reflexivity.
Qed.

Lemma checkReachability_reason (vuln : Finding) (reachabilityResults : ReachabilityResults) :
  fp_reason (checkReachability vuln reachabilityResults) = Some NON_REACHABLE.
Proof.
  unfold checkReachability.
  destruct (reachInfoOf vuln reachabilityResults) as [i|]; [|reflexivity].
  destruct (negb (isReachable i)); reflexivity.
Qed.






(** * Further properties of the sources *)

(** ** The dependency matcher and its callers *)

(** A string contains itself and the empty string. *)
Lemma includes_refl (s : string) : JS.includes s s = true.
Proof. rewrite includes_unfold, startsWith_refl. reflexivity. Qed.

Lemma includes_empty (s : string) : JS.includes s "" = true.
Proof. rewrite includes_unfold. now destruct s. Qed.

Lemma findEntry_None (normalizedSearch : string) (entries : DepMap) :
  findEntry normalizedSearch entries = None <->
  Forall (unrelated normalizedSearch) entries.
Proof.
  induction entries as [|[name info] rest IH]; simpl.
  - split; [constructor | reflexivity].
  - destruct (String.eqb_spec (normalizePackageName name) normalizedSearch) as [Heq|Hne].
    + split; [discriminate|]. intros H. inversion H as [|? ? [H1 _] _]; subst.
      simpl in H1. rewrite includes_refl in H1. discriminate.
    + destruct (JS.includes (normalizePackageName name) normalizedSearch) eqn:H1;
        [|destruct (JS.includes normalizedSearch (normalizePackageName name)) eqn:H2]; simpl.
      * split; [discriminate|]. intros H. inversion H as [|? ? [H1' _] _]; subst.
        simpl in H1'. congruence.
      * split; [discriminate|]. intros H. inversion H as [|? ? [_ H2'] _]; subst.
        simpl in H2'. congruence.
      * rewrite IH. split.
        -- intros H. constructor; [split; assumption | exact H].
        -- intros H. now inversion H.
Qed.

Lemma findEntry_Some (normalizedSearch : string) (entries : DepMap) (found : Match) :
  findEntry normalizedSearch entries = Some found ->
  (match_name found, match_info found) ∈ entries /\
  match_version found = versionOf (match_info found) /\
  (partialMatch found = false <-> normalizePackageName (match_name found) = normalizedSearch) /\
  (JS.includes (normalizePackageName (match_name found)) normalizedSearch = true \/
   JS.includes normalizedSearch (normalizePackageName (match_name found)) = true).
Proof.
  induction entries as [|[name info] rest IH]; simpl; [discriminate|].
  destruct (String.eqb_spec (normalizePackageName name) normalizedSearch) as [Heq|Hne].
  - intros [= <-]. simpl. repeat split; auto.
    + apply list_elem_of_here.
    + left. rewrite Heq. apply includes_refl.
  - destruct (_ || _) eqn:Hpart.
    + intros [= <-]. simpl. repeat split; try discriminate.
      * apply list_elem_of_here.
      * intros Heq. contradiction.
      * now apply orb_true_iff.
    + intros H. destruct (IH H) as [Hin Hrest]. split; [now apply list_elem_of_further|exact Hrest].
Qed.

(** X1. findDependencyMatch answers null exactly when the searched name is
    empty or no manifest entry is related to it by containment of the
    normalized names (equal names contain each other); an answer is an entry
    of the manifest, carries that entry's version, and is flagged partial
    exactly when the normalized names differ. *)
Theorem findDependencyMatch_characterised (depName : string) (manifestDeps : DepMap) :
  (findDependencyMatch depName manifestDeps = None <->
   depName = "" \/ Forall (unrelated (normalizePackageName depName)) manifestDeps) /\
  (forall found : Match,
      findDependencyMatch depName manifestDeps = Some found ->
      (match_name found, match_info found) ∈ manifestDeps /\
      match_version found = versionOf (match_info found) /\
      (partialMatch found = false <->
       normalizePackageName (match_name found) = normalizePackageName depName)).
Proof.
  unfold findDependencyMatch. destruct depName as [|c s]; simpl JS.truthy; cbn [negb].
  - split; [split; [now left | reflexivity] | discriminate].
  - split.
    + rewrite findEntry_None. split; [now right | intros [H|H]; [discriminate | exact H]].
    + intros found H. apply findEntry_Some in H. tauto.
Qed.

Lemma findDependencyMatch_characterised_witness :
  findDependencyMatch "left-pad" lodashManifest.(dependencies) = None /\
  (exists found, findDependencyMatch "Lodash" lodashManifest.(dependencies) = Some found /\
                 partialMatch found = false /\ match_version found = "4.17.21").
Proof.
  split.
  - apply (proj1 (findDependencyMatch_characterised "left-pad" _)).
    right. repeat constructor.
  - destruct (findDependencyMatch "Lodash" lodashManifest.(dependencies)) as [found|] eqn:H;
      [|discriminate].
    exists found. split; [reflexivity|].
    destruct (proj2 (findDependencyMatch_characterised "Lodash" _) found H) as [_ [Hv Hp]].
    split; [apply Hp|]; [|rewrite Hv]; now injection H as <-.
Defined.

(** X2. A dependency the classifier finds listed (its exact test on
    normalized names) is always matched by the analyzer's matcher, so a
    non-empty name listed among the production dependencies is a production
    dependency; without a manifest every name is. *)
Theorem listed_is_matched (depName : string) (deps : DepMap) :
  JS.truthy depName = true ->
  listedIn depName deps = true ->
  isSome (findDependencyMatch depName deps) = true /\
  (forall m : Manifest,
      productionDependencies m = deps -> isProductionDependency depName (Some m) = true) /\
  isProductionDependency depName None = true.
Proof.
  intros Htruthy Hlisted.
  assert (Hsome : isSome (findDependencyMatch depName deps) = true).
  { unfold findDependencyMatch. rewrite Htruthy. cbn [negb].
    destruct (findEntry (normalizePackageName depName) deps) eqn:Hfind; [reflexivity|].
    apply findEntry_None in Hfind.
    unfold listedIn in Hlisted. apply existsb_Exists in Hlisted.
    apply Exists_exists in Hlisted as [entry [Hin Heq]].
    rewrite Forall_forall in Hfind. destruct (Hfind entry Hin) as [H1 _].
    apply String.eqb_eq in Heq. rewrite Heq, includes_refl in H1. discriminate. }
  split; [exact Hsome|]. split; [|reflexivity].
  intros m <-. exact Hsome.
Qed.

Lemma listed_is_matched_witness :
  isProductionDependency "LODASH" (Some lodashManifest) = true.
Proof.
  exact (proj1 (proj2 (listed_is_matched "LODASH" (productionDependencies lodashManifest)
                         eq_refl eq_refl)) lodashManifest eq_refl).
Defined.

(** X3. A non-empty name that normalizes to the empty string (only dashes
    and underscores, for one) matches the first entry of any manifest: every
    string contains the empty one. *)
Theorem empty_normal_form_matches_first (depName name : string) (info : DepValue)
  (rest : DepMap) :
  JS.truthy depName = true ->
  normalizePackageName depName = "" ->
  findDependencyMatch depName ((name, info) :: rest) =
  Some (mkMatch name (versionOf info) info
          (negb (String.eqb (normalizePackageName name) ""))).
Proof.
  intros Htruthy Hempty. unfold findDependencyMatch. rewrite Htruthy, Hempty.
  cbn [negb findEntry]. rewrite includes_empty.
  now destruct (String.eqb _ _).
Qed.

Lemma empty_normal_form_matches_first_witness :
  findDependencyMatch "-_-" (dependencies shopManifest) =
  Some (mkMatch "express" "4.18.0" (InfoObject (mkDepInfo "4.18.0" false false)) true).
Proof.
  exact (empty_normal_form_matches_first "-_-" "express"
           (InfoObject (mkDepInfo "4.18.0" false false)) _ eq_refl eq_refl).
Defined.

(** X4. The reachability score lies between 50 and 100, so the clamp never
    acts; it is 50 without a record and reaches 100 exactly for a direct,
    non-development dependency judged with HIGH confidence. *)
Theorem reachability_score_range (reachabilityInfo : option ReachabilityInfo) :
  50 <= getReachabilityScore reachabilityInfo <= 100 /\
  getReachabilityScore None = 50 /\
  (getReachabilityScore reachabilityInfo = 100 <->
   exists i, reachabilityInfo = Some i /\ isDirect i = Some true /\
             isDevDependency i <> Some true /\ confidence i = HIGH).
Proof.
  split; [|split; [reflexivity|]].
  - destruct reachabilityInfo as [i|];
      [destruct i as [r c why [[|]|] [[|]|] md av ev pc]; destruct c|]; vm_compute; lia.
  - split.
    + destruct reachabilityInfo as [i|];
        [destruct i as [r c why [[|]|] [[|]|] md av ev pc]; destruct c|]; vm_compute; intros H; try (exfalso; lia);
        eexists; (split; [reflexivity|]); cbn; repeat split; discriminate.
    + intros [i [-> [Hd [Hdev Hc]]]].
      destruct i as [r c why d dev md av ev pc]. cbn in Hd, Hdev, Hc. subst.
      destruct dev as [[|]|]; [contradiction | reflexivity | reflexivity].
Qed.

(** ** Names, versions and paths *)

Lemma append_assoc_string (a b c : string) : (a +:+ b) +:+ c = a +:+ (b +:+ c).
Proof.
  induction a as [|x a IH]; [reflexivity|].
  change (String x ((a +:+ b) +:+ c) = String x (a +:+ (b +:+ c))). now rewrite IH.
Qed.

Lemma append_empty_r (a : string) : a +:+ "" = a.
Proof.
  induction a as [|x a IH]; [reflexivity|].
  change (String x (a +:+ "") = String x a). now rewrite IH.
Qed.

(** [endsWith] decides "is a string suffix of". *)
Lemma endsWith_spec (s suf : string) :
  JS.endsWith s suf = true <-> exists a, s = a +:+ suf.
Proof.
  induction s as [|c s IH]; cbn [JS.endsWith]; rewrite orb_true_iff, String.eqb_eq.
  - split.
    + intros [<-|H]; [now exists "" | discriminate].
    + intros [[|x a] H]; [left; exact H | discriminate].
  - rewrite IH. split.
    + intros [<-|[a ->]]; [now exists "" | now exists (String c a)].
    + intros [[|x a] H]; [left; exact H | right].
      injection H as -> ->. now exists a.
Qed.

Lemma markerSegment_spec (lowered sep marker : string) :
  JS.includes lowered (sep +:+ marker +:+ sep) || JS.endsWith lowered (sep +:+ marker) = true
  <-> markerSegment lowered sep marker.
Proof.
  rewrite orb_true_iff, includes_spec, endsWith_spec. unfold markerSegment. split.
  - intros [[a [b ->]]|[a ->]].
    + exists a, (sep +:+ b). split; [|right; now exists b].
      now rewrite !append_assoc_string.
    + exists a, "". split; [|now left]. now rewrite append_empty_r.
  - intros [a [b [-> [->|[b' ->]]]]].
    + right. exists a. now rewrite append_empty_r.
    + left. exists a, b'. now rewrite !append_assoc_string.
Qed.

(** X5. classifyPath answers unknown exactly for the empty path, and
    non_prod exactly when the lower-cased path has one of the nine markers
    as a whole segment that follows a slash (or a backslash) and is followed
    by the same separator or by the end of the path; a marker that opens the
    path, without a separator before it, does not count. *)
Theorem classifyPath_characterised (filePath : string) :
  (classifyPath filePath = unknown <-> filePath = "") /\
  (classifyPath filePath = non_prod <->
   filePath <> "" /\
   exists marker, In marker nonProdMarkers /\
     (markerSegment (JS.toLowerCase filePath) "/" marker \/
      markerSegment (JS.toLowerCase filePath) "\" marker)) /\
  classifyPath "test/unit.js" = prod /\
  classifyPath "src/Test/unit.js" = non_prod.
Proof.
  split; [|split; [|split; reflexivity]].
  - unfold classifyPath. destruct filePath as [|c s]; cbn [JS.truthy negb].
    + split; reflexivity.
    + destruct (existsb _ _); split; discriminate.
  - unfold classifyPath. destruct filePath as [|c s]; cbn [JS.truthy negb].
    + split; [discriminate | intros [H _]; contradiction].
    + set (lowered := JS.toLowerCase (String c s)).
      destruct (existsb _ nonProdMarkers) eqn:Hex.
      * split; [intros _ | reflexivity]. split; [discriminate|].
        apply existsb_exists in Hex as [marker [Hin Hm]].
        exists marker. split; [exact Hin|].
        rewrite !orb_true_iff in Hm.
        destruct Hm as [[[H|H]|H]|H].
        -- left. apply markerSegment_spec. now rewrite H.
        -- right. apply markerSegment_spec. now rewrite H.
        -- left. apply markerSegment_spec. rewrite H. apply orb_true_r.
        -- right. apply markerSegment_spec. rewrite H. apply orb_true_r.
      * split; [discriminate|]. intros [_ [marker [Hin Hseg]]]. exfalso.
        assert (Hno : forall x, In x nonProdMarkers ->
                  (fun marker =>
                     JS.includes lowered ("/" +:+ marker +:+ "/")
                     || JS.includes lowered ("\" +:+ marker +:+ "\")
                     || JS.endsWith lowered ("/" +:+ marker)
                     || JS.endsWith lowered ("\" +:+ marker)) x = false).
        { intros x Hx. destruct (_ || _) eqn:E; [|reflexivity].
          enough (existsb (fun marker =>
                     JS.includes lowered ("/" +:+ marker +:+ "/")
                     || JS.includes lowered ("\" +:+ marker +:+ "\")
                     || JS.endsWith lowered ("/" +:+ marker)
                     || JS.endsWith lowered ("\" +:+ marker)) nonProdMarkers = true)
            by congruence.
          apply existsb_exists. now exists x. }
        specialize (Hno marker Hin). cbv beta in Hno.
        rewrite !orb_false_iff in Hno. destruct Hno as [[[H1 H2] H3] H4].
        destruct Hseg as [Hseg|Hseg]; apply markerSegment_spec in Hseg;
          apply orb_true_iff in Hseg as [H|H]; congruence.
Qed.




Lemma mapChars_compose (f g : ascii -> ascii) (s : string) :
  JS.mapChars f (JS.mapChars g s) = JS.mapChars (fun c => f (g c)) s.
Proof. induction s as [|c s IH]; simpl; [reflexivity | now rewrite IH]. Qed.

Lemma mapChars_ext (f g : ascii -> ascii) (s : string) :
  (forall c, f c = g c) -> JS.mapChars f s = JS.mapChars g s.
Proof. intros H. induction s as [|c s IH]; simpl; [reflexivity | now rewrite H, IH]. Qed.





(** X7. Version matching is symmetric, and every non-empty version matches
    itself. *)
Theorem versionsMatch_symmetric (version1 version2 : string) :
  versionsMatch version1 version2 = versionsMatch version2 version1 /\
  (JS.truthy version1 = true -> versionsMatch version1 version1 = true).
Proof.
  split.
  - unfold versionsMatch.
    rewrite (orb_comm (negb (JS.truthy version1))).
    destruct (_ || _); [reflexivity|].
    rewrite (String.eqb_sym (cleanVersionString version1)).
    rewrite <- !orb_assoc. f_equal. apply orb_comm.
  - intros H. unfold versionsMatch. rewrite H. cbn [negb orb].
    now rewrite String.eqb_refl.
Qed.

Lemma versionsMatch_symmetric_witness :
  versionsMatch "^4.17.21" "4.17" = versionsMatch "4.17" "^4.17.21" /\
  versionsMatch "~1.2" "~1.2" = true.
Proof.
  split.
  - exact (proj1 (versionsMatch_symmetric "^4.17.21" "4.17")).
  - exact (proj2 (versionsMatch_symmetric "~1.2" "~1.2") eq_refl).
Defined.

Lemma componentwiseGreater_asymmetric (parts1 parts2 : list nat) :
  componentwiseGreater parts1 parts2 -> ~ componentwiseGreater parts2 parts1.
Proof.
  intros [i [Hi Hbefore]] [j [Hj Hbefore']].
  destruct (Nat.lt_trichotomy i j) as [Hlt|[->|Hgt]].
  - specialize (Hbefore' i Hlt). lia.
  - lia.
  - specialize (Hbefore j Hgt). lia.
Qed.

Lemma isHigherVersion_truthy (v1 v2 : string) :
  isHigherVersion v1 v2 = true -> JS.truthy v1 = true /\ JS.truthy v2 = true.
Proof.
  unfold isHigherVersion.
  destruct (JS.truthy v1), (JS.truthy v2); cbn [negb orb]; try discriminate.
  now split.
Qed.

Lemma split_cons (sep c : ascii) (s : string) :
  JS.split sep (String c s) =
  if Ascii.eqb c sep then "" :: JS.split sep s
  else match JS.split sep s with
       | h :: t => String c h :: t
       | [] => [String c ""]
       end.
Proof. reflexivity. Qed.

Lemma split_nonempty (sep : ascii) (s : string) : JS.split sep s <> [].
Proof.
  induction s as [|c s IH]; [discriminate|]. rewrite split_cons.
  destruct (Ascii.eqb c sep); [discriminate|]. now destruct (JS.split sep s).
Qed.

Lemma split_append_zero (s : string) :
  JS.split "." (s +:+ ".0") = JS.split "." s ++ ["0"].
Proof.
  induction s as [|c s IH]; [reflexivity|].
  change (String c s +:+ ".0") with (String c (s +:+ ".0")).
  rewrite !split_cons, IH.
  destruct (Ascii.eqb c "."); [reflexivity|].
  pose proof (split_nonempty "." s) as Hne.
  now destruct (JS.split "." s).
Qed.

(** X8. "Is a higher version" is a strict order relation in that it never
    holds both ways and never of a version against itself; in particular a
    version and the same version with trailing zero components (1.5 and
    1.5.0) are never higher than one another. *)
Theorem isHigherVersion_asymmetric (v1 v2 : string) :
  (isHigherVersion v1 v2 = true -> isHigherVersion v2 v1 = false) /\
  isHigherVersion v1 v1 = false /\
  isHigherVersion (v1 +:+ ".0") v1 = false.
Proof.
  assert (Hasym : forall a b, isHigherVersion a b = true -> isHigherVersion b a = false).
  { intros a b H. destruct (isHigherVersion_truthy a b H) as [Ta Tb].
    destruct (isHigherVersion b a) eqn:H'; [|reflexivity].
    apply isHigherVersion_spec in H; [|assumption..].
    apply isHigherVersion_spec in H'; [|assumption..].
    now apply componentwiseGreater_asymmetric in H. }
  split; [apply Hasym|]. split.
  - destruct (isHigherVersion v1 v1) eqn:H; [|reflexivity].
    now rewrite (Hasym _ _ H) in H.
  - destruct (isHigherVersion (v1 +:+ ".0") v1) eqn:H; [|reflexivity]. exfalso.
    destruct (isHigherVersion_truthy _ _ H) as [Ta Tb].
    apply isHigherVersion_spec in H; [|assumption..].
    destruct H as [i [Hgt _]].
    assert (Hparts : versionParts (v1 +:+ ".0") = versionParts v1 ++ [0])
      by (unfold versionParts; rewrite split_append_zero, map_app; reflexivity).
    rewrite Hparts in Hgt.
    destruct (Nat.lt_ge_cases i (length (versionParts v1))) as [Hlt|Hge].
    + rewrite app_nth1 in Hgt by exact Hlt. lia.
    + rewrite (nth_overflow (versionParts v1) 0 Hge) in Hgt.
      destruct (Nat.eq_dec i (length (versionParts v1))) as [->|Hne].
      * rewrite nth_middle in Hgt. lia.
      * rewrite nth_overflow in Hgt; [lia|]. rewrite length_app. simpl. lia.
Qed.

Lemma isHigherVersion_asymmetric_witness :
  isHigherVersion "1.5.0" "2.0.0" = false.
Proof.
  exact (proj1 (isHigherVersion_asymmetric "2.0.0" "1.5.0") eq_refl).
Defined.

(** ** The checks of the classifier *)

Lemma checkVersionMismatch_quiet (vuln : Finding) (m : Manifest) :
  Forall (fun entry =>
            entryMismatches
              (normalizePackageName (FalsePositiveDetector.extractPackageName (dependency vuln)))
              (JS.orElse (version vuln) (reportedVersion vuln)) entry = false)
    (dependencies m) ->
  checkVersionMismatch vuln (Some m) = mkFp false (Some VERSION_MISMATCH) "" LOW.
Proof. intros H. unfold checkVersionMismatch. now apply versionLoop_quiet. Qed.

Lemma version_check_quiet_unlisted (vuln : Finding) (m : Manifest) :
  listedIn (FalsePositiveDetector.extractPackageName (dependency vuln)) (dependencies m) = false ->
  isFalsePositive (checkVersionMismatch vuln (Some m)) = false.
Proof.
  intros Hlisted. rewrite checkVersionMismatch_quiet; [reflexivity|].
  apply Forall_forall. intros entry Hin. unfold entryMismatches.
  destruct (String.eqb _ _) eqn:Heq; [|reflexivity].
  exfalso. unfold listedIn in Hlisted.
  assert (Hex : existsb (fun e : string * DepValue =>
                   String.eqb (normalizePackageName e.1)
                     (normalizePackageName
                        (FalsePositiveDetector.extractPackageName (dependency vuln))))
                  (dependencies m) = true)
    by (apply existsb_exists; exists entry; split; [now apply list_elem_of_In|exact Heq]).
  congruence.
Qed.

(** X9. The version check cannot fire without a manifest, on a finding that
    carries no version (neither version nor reportedVersion), or on a
    dependency no entry of the manifest is listed under. *)
Theorem version_check_needs_evidence (vuln : Finding) (m : Manifest) :
  isFalsePositive (checkVersionMismatch vuln None) = false /\
  (version vuln = "" -> reportedVersion vuln = "" ->
   isFalsePositive (checkVersionMismatch vuln (Some m)) = false) /\
  (listedIn (FalsePositiveDetector.extractPackageName (dependency vuln)) (dependencies m) = false ->
   isFalsePositive (checkVersionMismatch vuln (Some m)) = false).
Proof.
  split; [reflexivity|]. split.
  - intros Hv Hr. rewrite checkVersionMismatch_quiet; [reflexivity|].
    rewrite Hv, Hr. apply Forall_forall. intros entry _.
    unfold entryMismatches. cbn [JS.orElse JS.truthy].
    now rewrite andb_false_r.
  - apply version_check_quiet_unlisted.
Qed.

Lemma version_check_needs_evidence_witness :
  isFalsePositive
    (checkVersionMismatch
       (mkFinding "CVE-2020-8203" "lodash" "" "" "HIGH" "" [] "") (Some jestManifest)) = false /\
  isFalsePositive
    (checkVersionMismatch
       (mkFinding "CVE-2020-8203" "lodash" "4.17.15" "4.17.15" "HIGH" "" [] "")
       (Some jestManifest)) = false.
Proof.
  split.
  - exact (proj1 (proj2 (version_check_needs_evidence
             (mkFinding "CVE-2020-8203" "lodash" "" "" "HIGH" "" [] "") jestManifest))
             eq_refl eq_refl).
  - exact (proj2 (proj2 (version_check_needs_evidence
             (mkFinding "CVE-2020-8203" "lodash" "4.17.15" "4.17.15" "HIGH" "" [] "")
             jestManifest)) eq_refl).
Defined.

Lemma versionParts_Unknown : versionParts "Unknown" = [0].
Proof. reflexivity. Qed.

Lemma nth_single_zero (i : nat) : nth i [0] 0 = 0.
Proof. destruct i as [|[|i]]; reflexivity. Qed.

Lemma greater_than_zero (parts : list nat) :
  componentwiseGreater parts [0] <-> Exists (fun p => 0 < p) parts.
Proof.
  unfold componentwiseGreater. split.
  - intros [i [Hgt _]]. rewrite nth_single_zero in Hgt.
    apply Exists_exists. exists (nth i parts 0). split; [|exact Hgt].
    apply list_elem_of_In, nth_In.
    destruct (Nat.lt_ge_cases i (length parts)) as [H|H]; [exact H|].
    rewrite (nth_overflow parts 0 H) in Hgt. lia.
  - induction 1 as [p rest Hp|p rest _ [i [Hgt Heq]]].
    + exists 0. split; [simpl; lia | intros j Hj; lia].
    + destruct (Nat.eq_dec p 0) as [->|Hne].
      * exists (S i). rewrite nth_single_zero in *. split; [exact Hgt|].
        intros [|j] Hj; rewrite nth_single_zero; [reflexivity|].
        cbn [nth]. rewrite (Heq j ltac:(lia)). apply nth_single_zero.
      * exists 0. split; [simpl; lia | intros j Hj; lia].
Qed.

(** X10. The parser writes the version it could not determine as the string
    Unknown, and the version check takes it for a version: for a finding so
    marked, the first manifest entry of the dependency that declares a
    version not prefix-related to it makes the finding a VERSION_MISMATCH
    false positive, with HIGH confidence as soon as some component of the
    manifest version is positive. *)
Theorem unknown_version_is_mismatch (vuln : Finding) (m : Manifest)
  (before after : DepMap) (name : string) (info : DepValue) :
  let normalizedDep :=
    normalizePackageName (FalsePositiveDetector.extractPackageName (dependency vuln)) in
  let verdict := checkVersionMismatch vuln (Some m) in
  version vuln = "Unknown" ->
  dependencies m = before ++ (name, info) :: after ->
  Forall (fun entry : string * DepValue =>
            normalizePackageName entry.1 <> normalizedDep) before ->
  normalizePackageName name = normalizedDep ->
  JS.truthy (versionOf info) = true ->
  versionsMatch (versionOf info) "Unknown" = false ->
  isFalsePositive verdict = true /\
  fp_reason verdict = Some VERSION_MISMATCH /\
  (fp_confidence verdict = HIGH <-> Exists (fun p => 0 < p) (versionParts (versionOf info))) /\
  (fp_confidence verdict = MEDIUM <-> Forall (fun p => p = 0) (versionParts (versionOf info))).
Proof.
  intros normalizedDep verdict Hv Hdeps Hbefore Hname Tactual Hmismatch.
  pose proof (isHigherVersion_spec (versionOf info) "Unknown" Tactual eq_refl) as Hdir.
  rewrite versionParts_Unknown, greater_than_zero in Hdir.
  assert (Hzero : Forall (fun p => p = 0) (versionParts (versionOf info)) <->
                  ~ Exists (fun p => 0 < p) (versionParts (versionOf info))).
  { rewrite <- Forall_Exists_neg. apply Forall_proper; [|reflexivity]. intros p. lia. }
  unfold verdict, checkVersionMismatch. fold normalizedDep.
  rewrite Hv. cbn [JS.orElse JS.truthy].
  rewrite Hdeps, versionLoop_skip.
  - cbn [versionLoop]. unfold entryMismatches. cbn [fst snd].
    rewrite Hname, String.eqb_refl, Tactual, Hmismatch. cbn [andb negb JS.truthy].
    destruct (isHigherVersion (versionOf info) "Unknown");
      cbn [isFalsePositive fp_reason fp_confidence].
    + assert (He : Exists (fun p => 0 < p) (versionParts (versionOf info))) by now apply Hdir.
      repeat split; try tauto; try discriminate.
    + assert (Hn : ~ Exists (fun p => 0 < p) (versionParts (versionOf info)))
        by (intros H; apply Hdir in H; discriminate).
      repeat split; try tauto; try discriminate.
  - eapply Forall_impl; [exact Hbefore|]. intros entry Hne. unfold entryMismatches.
    destruct (String.eqb_spec (normalizePackageName entry.1) normalizedDep);
      [contradiction | reflexivity].
Qed.

Lemma unknown_version_is_mismatch_witness :
  let verdict :=
    checkVersionMismatch
      (mkFinding "CVE-2020-8203" "lodash" "Unknown" "Unknown" "HIGH" "" [] "")
      (Some lodashManifest) in
  isFalsePositive verdict = true /\ fp_confidence verdict = HIGH.
Proof.
  destruct (unknown_version_is_mismatch
              (mkFinding "CVE-2020-8203" "lodash" "Unknown" "Unknown" "HIGH" "" [] "")
              lodashManifest [] [] "lodash" (InfoObject (mkDepInfo "4.17.21" false false))
              eq_refl eq_refl (Forall_nil_2 _) eq_refl eq_refl eq_refl)
    as [Hfp [_ [Hhigh _]]].
  split; [exact Hfp|]. apply Hhigh. apply Exists_cons_hd. cbv. lia.
Defined.

Lemma envLoop_None (runtimePlatform description : string)
  (signals : list (string * list string)) :
  envLoop runtimePlatform description signals = None <->
  Forall (fun signal => signalHits runtimePlatform description signal = false) signals.
Proof.
  induction signals as [|[keyword platforms] rest IH]; cbn [envLoop].
  - split; [constructor | reflexivity].
  - change (JS.includes description keyword
            && negb (existsb (String.eqb runtimePlatform) platforms))
      with (signalHits runtimePlatform description (keyword, platforms)).
    destruct (signalHits _ _ _) eqn:Hhit.
    + split; [discriminate|]. intros H. inversion H; subst. congruence.
    + rewrite IH. split; [now constructor | intros H; now inversion H].
Qed.

Lemma checkEnvironmentMismatch_fires (runtimePlatform : string) (vuln : Finding)
  (manifestData : option Manifest) :
  isFalsePositive (checkEnvironmentMismatch runtimePlatform vuln manifestData) = true ->
  fp_confidence (checkEnvironmentMismatch runtimePlatform vuln manifestData) = MEDIUM.
Proof.
  unfold checkEnvironmentMismatch, when.
  destruct (envLoop _ _ _); [reflexivity|].
  split_branches; cbn; intros H; (reflexivity || discriminate).
Qed.

(** X11. The platform keywords are searched as substrings of the lower-cased
    description: whenever one of them occurs there, be it inside another
    word, and names a platform other than the one the analysis runs on, the
    environment check fires with MEDIUM confidence and the finding is
    reported as a false positive whatever else is known about it. The
    description of an SSRF in axios contains ios. *)
Theorem environment_keyword_fires (runtimePlatform : string) (vuln : Finding)
  (manifestData : option Manifest) (reachabilityResults : ReachabilityResults)
  (keyword : string) (platforms : list string) :
  In (keyword, platforms) envSignals ->
  JS.includes (JS.toLowerCase (description vuln)) keyword = true ->
  ~ In runtimePlatform platforms ->
  let check := checkEnvironmentMismatch runtimePlatform vuln manifestData in
  isFalsePositive check = true /\
  fp_reason check = Some ENV_MISMATCH /\
  fp_confidence check = MEDIUM /\
  isFalsePositive
    (analyzeVulnerability runtimePlatform vuln manifestData reachabilityResults) = true.
Proof.
  intros Hin Hinc Hplat check.
  assert (Hfire : isFalsePositive check = true).
  { unfold check, checkEnvironmentMismatch.
    destruct (envLoop runtimePlatform (JS.toLowerCase (description vuln)) envSignals)
      eqn:Hloop; [reflexivity|]. exfalso.
    apply envLoop_None in Hloop. rewrite Forall_forall in Hloop.
    specialize (Hloop (keyword, platforms) (proj2 (list_elem_of_In _ _) Hin)).
    unfold signalHits in Hloop. cbn [fst snd] in Hloop. rewrite Hinc in Hloop.
    cbn [andb] in Hloop. apply negb_false_iff, existsb_exists in Hloop as [p [Hp Heq]].
    apply String.eqb_eq in Heq. subst p. contradiction. }
  split; [exact Hfire|]. split; [apply checkEnvironmentMismatch_reason|].
  split; [now apply checkEnvironmentMismatch_fires|].
  unfold analyzeVulnerability.
  destruct (isFalsePositive (checkVersionMismatch vuln manifestData)) eqn:Hv; [exact Hv|].
  fold check. now rewrite Hfire.
Qed.

Lemma environment_keyword_fires_witness :
  isFalsePositive
    (analyzeVulnerability "linux"
       (mkFinding "CVE-2020-28168" "axios" "0.21.0" "0.21.0" "MEDIUM"
          "Axios allows server-side request forgery" [] "")
       None (mkResults [] [] [] ∅)) = true.
Proof.
  refine (proj2 (proj2 (proj2 (environment_keyword_fires "linux"
            (mkFinding "CVE-2020-28168" "axios" "0.21.0" "0.21.0" "MEDIUM"
               "Axios allows server-side request forgery" [] "")
            None (mkResults [] [] [] ∅) "ios" ["ios"] _ eq_refl _)))).
  - cbn. tauto.
  - cbn. intros [H|[]]. discriminate H.
Defined.

(** ** Verdicts and the records behind them *)

Lemma versionLoop_shape (normalizedDep reportedVersion : string) (entries : DepMap) :
  let check := versionLoop normalizedDep reportedVersion entries in
  fp_reason check = Some VERSION_MISMATCH /\
  (isFalsePositive check = true ->
   fp_confidence check = HIGH \/ fp_confidence check = MEDIUM).
Proof.
  induction entries as [|entry rest IH]; cbn [versionLoop].
  - split; [reflexivity | discriminate].
  - destruct (entryMismatches _ _ _); [|exact IH].
    destruct (isHigherVersion _ _); split; auto.
Qed.

Lemma checkVersionMismatch_shape (vuln : Finding) (manifestData : option Manifest) :
  let check := checkVersionMismatch vuln manifestData in
  fp_reason check = Some VERSION_MISMATCH /\
  (isFalsePositive check = true ->
   fp_confidence check = HIGH \/ fp_confidence check = MEDIUM).
Proof.
  destruct manifestData as [m|]; [apply versionLoop_shape|].
  split; [reflexivity | discriminate].
Qed.

Lemma checkDevOnlyDependency_shape (vuln : Finding) (manifestData : option Manifest)
  (reachabilityResults : ReachabilityResults) :
  let check := checkDevOnlyDependency vuln manifestData reachabilityResults in
  fp_reason check = Some DEV_ONLY /\
  (isFalsePositive check = true -> fp_confidence check = HIGH).
Proof.
  unfold checkDevOnlyDependency. destruct manifestData as [m|].
  - split_branches; split; (reflexivity || discriminate).
  - split; [reflexivity | discriminate].
Qed.

Lemma checkReachability_shape (vuln : Finding) (reachabilityResults : ReachabilityResults) :
  let check := checkReachability vuln reachabilityResults in
  isFalsePositive check = true ->
  exists i, reachInfoOf vuln reachabilityResults = Some i /\ isReachable i = false /\
            fp_confidence check = confidence i.
Proof.
  unfold checkReachability.
  destruct (reachInfoOf vuln reachabilityResults) as [i|]; [|discriminate].
  destruct (isReachable i) eqn:Hr; cbn; [discriminate|].
  intros _. now exists i.
Qed.

Lemma checkUnusedTransitive_shape (vuln : Finding) (manifestData : option Manifest)
  (reachabilityResults : ReachabilityResults) :
  let check := checkUnusedTransitive vuln manifestData reachabilityResults in
  fp_reason check = Some UNUSED_TRANSITIVE /\
  (isFalsePositive check = true -> fp_confidence check = MEDIUM).
Proof.
  unfold checkUnusedTransitive. destruct manifestData as [m|].
  - split_branches; split; (reflexivity || discriminate).
  - split; [reflexivity | discriminate].
Qed.

(** The verdict of the chain is the answer of one of the five checks, which
    fired, or the default. *)
Lemma analyzeVulnerability_cases (runtimePlatform : string) (vuln : Finding)
  (manifestData : option Manifest) (reachabilityResults : ReachabilityResults) :
  let verdict := analyzeVulnerability runtimePlatform vuln manifestData reachabilityResults in
  (isFalsePositive verdict = true /\
   (verdict = checkVersionMismatch vuln manifestData \/
    verdict = checkEnvironmentMismatch runtimePlatform vuln manifestData \/
    verdict = checkDevOnlyDependency vuln manifestData reachabilityResults \/
    verdict = checkReachability vuln reachabilityResults \/
    verdict = checkUnusedTransitive vuln manifestData reachabilityResults)) \/
  verdict = mkFp false None "" LOW.
Proof.
  unfold analyzeVulnerability.
  destruct (isFalsePositive (checkVersionMismatch vuln manifestData)) eqn:H1;
    [left; split; [exact H1 | now left]|].
  destruct (isFalsePositive (checkEnvironmentMismatch runtimePlatform vuln manifestData)) eqn:H2;
    [left; split; [exact H2 | right; now left]|].
  destruct (isFalsePositive (checkDevOnlyDependency vuln manifestData reachabilityResults)) eqn:H3;
    [left; split; [exact H3 | right; right; now left]|].
  destruct (isFalsePositive (checkReachability vuln reachabilityResults)) eqn:H4;
    [left; split; [exact H4 | right; right; right; now left]|].
  destruct (isFalsePositive (checkUnusedTransitive vuln manifestData reachabilityResults)) eqn:H5;
    [left; split; [exact H5 | right; right; right; now right]|].
  now right.
Qed.

(** A verdict that fires has HIGH or MEDIUM confidence, or the confidence of
    an unreachable record stored under the finding's cveId. *)
Lemma fired_confidence (runtimePlatform : string) (vuln : Finding)
  (manifestData : option Manifest) (reachabilityResults : ReachabilityResults) :
  let verdict := analyzeVulnerability runtimePlatform vuln manifestData reachabilityResults in
  isFalsePositive verdict = true ->
  fp_confidence verdict = HIGH \/ fp_confidence verdict = MEDIUM \/
  exists i, reachInfoOf vuln reachabilityResults = Some i /\ isReachable i = false /\
            fp_confidence verdict = confidence i.
Proof.
  intros verdict Hfire.
  destruct (analyzeVulnerability_cases runtimePlatform vuln manifestData reachabilityResults)
    as [[_ Hcase]|Hdefault]; fold verdict in Hcase || fold verdict in Hdefault;
    [|rewrite Hdefault in Hfire; discriminate].
  destruct Hcase as [H|[H|[H|[H|H]]]]; rewrite H in Hfire |- *.
  - destruct (proj2 (checkVersionMismatch_shape vuln manifestData) Hfire); auto.
  - right; left. now apply checkEnvironmentMismatch_fires.
  - left. now apply (proj2 (checkDevOnlyDependency_shape vuln manifestData reachabilityResults)).
  - right; right. now apply checkReachability_shape.
  - right; left.
    now apply (proj2 (checkUnusedTransitive_shape vuln manifestData reachabilityResults)).
Qed.

(** A verdict that fires names its reason. *)
Lemma fired_reason (runtimePlatform : string) (vuln : Finding)
  (manifestData : option Manifest) (reachabilityResults : ReachabilityResults) :
  let verdict := analyzeVulnerability runtimePlatform vuln manifestData reachabilityResults in
  isFalsePositive verdict = true -> isSome (fp_reason verdict) = true.
Proof.
  intros verdict Hfire.
  destruct (analyzeVulnerability_cases runtimePlatform vuln manifestData reachabilityResults)
    as [[_ Hcase]|Hdefault]; fold verdict in Hcase || fold verdict in Hdefault;
    [|rewrite Hdefault in Hfire; discriminate].
  destruct Hcase as [H|[H|[H|[H|H]]]]; rewrite H.
  - now rewrite (proj1 (checkVersionMismatch_shape vuln manifestData)).
  - now rewrite checkEnvironmentMismatch_reason.
  - now rewrite (proj1 (checkDevOnlyDependency_shape vuln manifestData reachabilityResults)).
  - now rewrite checkReachability_reason.
  - now rewrite (proj1 (checkUnusedTransitive_shape vuln manifestData reachabilityResults)).
Qed.


Lemma assessCallGraphReachability_confidence (vuln : Finding)
  (callGraph : option CallGraph) (r : CallGraphResult) :
  assessCallGraphReachability vuln callGraph = Some r -> cg_confidence r <> LOW.
Proof.
  unfold assessCallGraphReachability. destruct callGraph as [g|]; [|discriminate].
  split_branches; intros [= <-]; discriminate.
Qed.

(** With a manifest no record has LOW confidence. *)
Lemma infoWithManifest_confidence (m : Manifest) (callGraph : option CallGraph)
  (vuln : Finding) :
  confidence (infoWithManifest m callGraph vuln) <> LOW.
Proof.
  unfold infoWithManifest, when.
  destruct (assessCallGraphReachability vuln callGraph) as [r|] eqn:Hcg;
    [apply assessCallGraphReachability_confidence in Hcg|];
    split_branches; cbn; (discriminate || exact Hcg).
Qed.

(** A record that says unreachable never has LOW confidence. *)
Lemma unreachable_record_confidence (manifestData : option Manifest)
  (callGraph : option CallGraph) (vuln : Finding) :
  isReachable (reachabilityInfoOf manifestData callGraph vuln) = false ->
  confidence (reachabilityInfoOf manifestData callGraph vuln) <> LOW.
Proof.
  destruct manifestData as [m|]; cbn [reachabilityInfoOf].
  - intros _. apply infoWithManifest_confidence.
  - unfold infoWithoutManifest. cbn [isReachable confidence].
    destruct (assessCallGraphReachability vuln callGraph) as [r|] eqn:Hcg; [|discriminate].
    intros _. now apply assessCallGraphReachability_confidence in Hcg.
Qed.

(** Every record of the map was built for a finding of the report. *)
Lemma reachabilityMap_origin (owaspData : OwaspData) (manifestData : option Manifest)
  (callGraph : option CallGraph) (c : string) (i : ReachabilityInfo) :
  reachabilityMap (analyzeReachability owaspData manifestData callGraph) !! c = Some i ->
  exists vuln, vuln ∈ vulnerabilities owaspData /\ cveId vuln = c /\
               i = reachabilityInfoOf manifestData callGraph vuln.
Proof.
  unfold analyzeReachability. rewrite fold_analyzeOne_lookup.
  destruct (lastWithCve c (vulnerabilities owaspData)) as [vuln|] eqn:Hlast.
  - intros [= <-]. exists vuln. unfold lastWithCve in Hlast.
    apply last_Some_elem_of, list_elem_of_filter in Hlast as [Hc Hin]. now repeat split.
  - cbn [reachabilityMap]. rewrite lookup_empty. discriminate.
Qed.

(** X13. Run on the records of analyzeReachability, with or without
    manifest and call graph, detectFalsePositives never reports a false
    positive of LOW confidence. *)
Theorem reported_confidence_not_low (runtimePlatform : string) (owaspData : OwaspData)
  (manifestData : option Manifest) (callGraph : option CallGraph) :
  Forall (fun fp => confidence_grade fp = HIGH \/ confidence_grade fp = MEDIUM)
    (detectFalsePositives runtimePlatform owaspData manifestData
       (analyzeReachability owaspData manifestData callGraph)).
Proof.
  apply Forall_forall. intros fp Hin.
  unfold detectFalsePositives in Hin. apply list_elem_of_omap in Hin as [vuln [_ Hd]].
  unfold detectOne in Hd.
  pose proof (fired_confidence runtimePlatform vuln manifestData
                (analyzeReachability owaspData manifestData callGraph)) as Hconf.
  cbv zeta in Hconf.
  destruct (isFalsePositive _); [|discriminate].
  injection Hd as <-. cbn [confidence_grade].
  destruct (Hconf eq_refl) as [H|[H|[i [Hi [Hunreach ->]]]]]; [now left | now right |].
  apply reachabilityMap_origin in Hi as [v [_ [_ ->]]].
  apply unreachable_record_confidence in Hunreach.
  destruct (confidence _); tauto.
Qed.

(** X14. Without a manifest and without a call graph every record says
    reachable, so the only findings reported as false positives are those
    the environment check fires on. *)
Theorem conservative_without_evidence (runtimePlatform : string) (owaspData : OwaspData) :
  let results := analyzeReachability owaspData None None in
  map_Forall (fun _ i => isReachable i = true) (reachabilityMap results) /\
  Forall (fun fp =>
            reason_code fp = Some ENV_MISMATCH /\
            isFalsePositive
              (checkEnvironmentMismatch runtimePlatform (originalVuln fp) None) = true)
    (detectFalsePositives runtimePlatform owaspData None results).
Proof.
  intros results.
  assert (Hreach : map_Forall (fun _ i => isReachable i = true) (reachabilityMap results)).
  { intros c i Hi. apply reachabilityMap_origin in Hi as [v [_ [_ ->]]]. reflexivity. }
  split; [exact Hreach|].
  apply Forall_forall. intros fp Hin.
  unfold detectFalsePositives in Hin. apply list_elem_of_omap in Hin as [vuln [_ Hd]].
  unfold detectOne, analyzeVulnerability in Hd.
  cbn [checkVersionMismatch checkDevOnlyDependency checkUnusedTransitive isFalsePositive] in Hd.
  destruct (isFalsePositive (checkEnvironmentMismatch runtimePlatform vuln None)) eqn:Henv.
  - rewrite Henv in Hd. injection Hd as <-. cbn [reason_code originalVuln].
    split; [apply checkEnvironmentMismatch_reason | exact Henv].
  - unfold checkReachability in Hd.
    destruct (reachInfoOf vuln results) as [i|] eqn:Hi; [|discriminate].
    rewrite (Hreach _ _ Hi) in Hd. discriminate.
Qed.

(** ** The dependency lists of the analyzer *)

Lemma analyzeOne_lists_without_manifest (callGraph : option CallGraph)
  (findings : list Finding) (results : ReachabilityResults) :
  let final := fold_left (analyzeOne None callGraph) findings results in
  directDependencies final = directDependencies results /\
  transitiveDependencies final = transitiveDependencies results /\
  unreachableDependencies final =
    unreachableDependencies results ++
    map dependency (filter (fun vuln => classifyPath (filePath vuln) = non_prod) findings).
Proof.
  revert results; induction findings as [|vuln rest IH]; intros results; cbn [fold_left].
  - rewrite app_nil_r. now repeat split.
  - destruct (IH (analyzeOne None callGraph results vuln)) as [Hd [Ht Hu]].
    cbv zeta. rewrite Hd, Ht, Hu. cbn [analyzeOne directDependencies transitiveDependencies
                                       unreachableDependencies].
    repeat split. rewrite filter_cons. unfold bool_decide.
    destruct (decide_rel eq _ _); destruct (decide _); try contradiction;
      cbn [map]; rewrite <- ?app_assoc; reflexivity.
Qed.

(** X15. Without a manifest the analyzer lists no direct and no transitive
    dependency, and lists as unreachable, in report order, exactly the
    dependencies of the findings in non-production paths; when there is no
    call graph either, the records of these same findings say reachable,
    with MEDIUM confidence. *)
Theorem lists_without_manifest (owaspData : OwaspData) (callGraph : option CallGraph) :
  let results := analyzeReachability owaspData None callGraph in
  directDependencies results = [] /\
  transitiveDependencies results = [] /\
  unreachableDependencies results =
    map dependency
      (filter (fun vuln => classifyPath (filePath vuln) = non_prod)
         (vulnerabilities owaspData)) /\
  Forall (fun vuln =>
            classifyPath (filePath vuln) = non_prod ->
            isReachable (reachabilityInfoOf None None vuln) = true /\
            confidence (reachabilityInfoOf None None vuln) = MEDIUM)
    (vulnerabilities owaspData).
Proof.
  intros results.
  destruct (analyzeOne_lists_without_manifest callGraph (vulnerabilities owaspData)
              (mkResults [] [] [] ∅)) as [Hd [Ht Hu]].
  repeat split; [exact Hd | exact Ht | exact Hu |].
  apply Forall_forall. intros vuln _ Hpath.
  unfold reachabilityInfoOf, infoWithoutManifest.
  cbn [assessCallGraphReachability isReachable confidence].
  rewrite Hpath. split; reflexivity.
Qed.

Lemma lists_without_manifest_witness :
  let results := analyzeReachability (mkOwasp [expressFinding; fixtureFinding]) None None in
  unreachableDependencies results = ["lodash"] /\
  isReachable (reachabilityInfoOf None None fixtureFinding) = true.
Proof.
  destruct (lists_without_manifest (mkOwasp [expressFinding; fixtureFinding]) None)
    as [_ [_ [Hu Hrec]]].
  split; [exact Hu|].
  apply Forall_forall with (x := fixtureFinding) in Hrec;
    [exact (proj1 (Hrec eq_refl)) | apply list_elem_of_further, list_elem_of_here].
Defined.

Lemma analyzeOne_lists_with_manifest (m : Manifest) (callGraph : option CallGraph)
  (findings : list Finding) (results : ReachabilityResults) :
  let final := fold_left (analyzeOne (Some m) callGraph) findings results in
  directDependencies final =
    directDependencies results ++
    map dependency (filter (fun vuln => isProductionOnly m vuln = true) findings) /\
  transitiveDependencies final =
    transitiveDependencies results ++
    map dependency (filter (fun vuln => isUndeclared m vuln = true) findings).
Proof.
  revert results; induction findings as [|vuln rest IH]; intros results; cbn [fold_left].
  - rewrite !app_nil_r. now split.
  - destruct (IH (analyzeOne (Some m) callGraph results vuln)) as [Hd Ht].
    cbv zeta. rewrite Hd, Ht. rewrite !filter_cons.
    unfold analyzeOne, pushesWithManifest.
    cbn [directDependencies transitiveDependencies].
    fold (isProductionOnly m vuln). fold (isUndeclared m vuln).
    destruct (isProductionOnly m vuln), (isUndeclared m vuln);
      repeat (destruct (decide _); try congruence);
      cbn [map]; rewrite <- ?app_assoc, ?app_nil_r; split; reflexivity.
Qed.

(** X16. With a manifest the analyzer lists as direct, in report order, the
    dependencies of the findings matched among the production dependencies
    and not among the development ones, and as transitive those of the
    findings matched by no entry of the dependency map; both lists have at
    most one entry per finding. *)
Theorem lists_with_manifest (owaspData : OwaspData) (m : Manifest)
  (callGraph : option CallGraph) :
  let results := analyzeReachability owaspData (Some m) callGraph in
  directDependencies results =
    map dependency (filter (fun vuln => isProductionOnly m vuln = true)
                      (vulnerabilities owaspData)) /\
  transitiveDependencies results =
    map dependency (filter (fun vuln => isUndeclared m vuln = true)
                      (vulnerabilities owaspData)) /\
  length (directDependencies results) <= length (vulnerabilities owaspData) /\
  length (transitiveDependencies results) <= length (vulnerabilities owaspData).
Proof.
  intros results.
  destruct (analyzeOne_lists_with_manifest m callGraph (vulnerabilities owaspData)
              (mkResults [] [] [] ∅)) as [Hd Ht].
  cbn [directDependencies transitiveDependencies app] in Hd, Ht.
  unfold results, analyzeReachability. rewrite Hd, Ht.
  repeat split; rewrite length_map; apply length_filter.
Qed.

(** ** Undeclared dependencies *)

(** The record of a finding whose dependency matches nothing in the manifest,
    when there is no call graph. *)
Lemma infoWithManifest_undeclared (m : Manifest) (vuln : Finding) :
  let depName := ReachabilityAnalyzer.extractPackageName (dependency vuln) in
  findDependencyMatch depName (dependencies m) = None ->
  findDependencyMatch depName (productionDependencies m) = None ->
  findDependencyMatch depName (devDependencies m) = None ->
  let record := infoWithManifest m None vuln in
  isDirect record = Some false /\
  isDevDependency record = Some false /\
  (classifyPath (filePath vuln) = non_prod ->
   isReachable record = false /\ confidence record = HIGH) /\
  (classifyPath (filePath vuln) <> non_prod ->
   isReachable record = true /\ confidence record = MEDIUM).
Proof.
  intros depName H1 H2 H3 record.
  unfold record, infoWithManifest. fold depName. rewrite H1, H2, H3.
  cbn [assessCallGraphReachability isSome negb andb matchIsOptional when
       setVerdict setDirect pathClassification confidence].
  unfold when.
  destruct (bool_decide_reflect (classifyPath (filePath vuln) = non_prod)) as [Hp|Hp];
    cbn; repeat split; try reflexivity; intros; contradiction.
Qed.

(** X17. With a manifest and no call graph, a finding whose dependency
    matches no entry of the manifest (nor of its production and development
    maps) and whose record is the one stored under its cveId is always
    reported as a false positive, whatever its severity: when neither the
    environment check nor the development-only check fires first it is
    NON_REACHABLE in a non-production path and UNUSED_TRANSITIVE with MEDIUM
    confidence anywhere else. *)
Theorem undeclared_dependency_is_false_positive (runtimePlatform : string)
  (vuln : Finding) (m : Manifest) (results : ReachabilityResults) :
  let depName := ReachabilityAnalyzer.extractPackageName (dependency vuln) in
  findDependencyMatch depName (dependencies m) = None ->
  findDependencyMatch depName (productionDependencies m) = None ->
  findDependencyMatch depName (devDependencies m) = None ->
  listedIn (FalsePositiveDetector.extractPackageName (dependency vuln)) (dependencies m)
    = false ->
  reachInfoOf vuln results = Some (reachabilityInfoOf (Some m) None vuln) ->
  let verdict := analyzeVulnerability runtimePlatform vuln (Some m) results in
  isFalsePositive verdict = true /\
  (isFalsePositive (checkEnvironmentMismatch runtimePlatform vuln (Some m)) = false ->
   isFalsePositive (checkDevOnlyDependency vuln (Some m) results) = false ->
   if bool_decide (classifyPath (filePath vuln) = non_prod)
   then fp_reason verdict = Some NON_REACHABLE /\ fp_confidence verdict = HIGH
   else fp_reason verdict = Some UNUSED_TRANSITIVE /\ fp_confidence verdict = MEDIUM).
Proof.
  intros depName H1 H2 H3 Hlisted Hrec verdict.
  destruct (infoWithManifest_undeclared m vuln H1 H2 H3)
    as [Hdirect [_ [Hnonprod Hprod]]].
  assert (Hversion : isFalsePositive (checkVersionMismatch vuln (Some m)) = false)
    by (apply version_check_quiet_unlisted; exact Hlisted).
  assert (Htail :
    let tail :=
      let reachabilityCheck := checkReachability vuln results in
      if isFalsePositive reachabilityCheck then reachabilityCheck else
      let transitiveCheck := checkUnusedTransitive vuln (Some m) results in
      if isFalsePositive transitiveCheck then transitiveCheck else mkFp false None "" LOW in
    isFalsePositive tail = true /\
    if bool_decide (classifyPath (filePath vuln) = non_prod)
    then fp_reason tail = Some NON_REACHABLE /\ fp_confidence tail = HIGH
    else fp_reason tail = Some UNUSED_TRANSITIVE /\ fp_confidence tail = MEDIUM).
  { unfold checkReachability, checkUnusedTransitive. rewrite Hrec.
    cbn [reachabilityInfoOf]. cbv zeta.
    destruct (bool_decide_reflect (classifyPath (filePath vuln) = non_prod)) as [Hp|Hp].
    - destruct (Hnonprod Hp) as [-> ->]. cbn. now repeat split.
    - destruct (Hprod Hp) as [-> ->]. rewrite Hdirect, Hlisted. cbn. now repeat split. }
  cbv zeta in Htail. destruct Htail as [Hfp Hreason].
  unfold verdict, analyzeVulnerability. rewrite Hversion.
  split.
  - destruct (isFalsePositive (checkEnvironmentMismatch _ _ _)) eqn:E1; [exact E1|].
    destruct (isFalsePositive (checkDevOnlyDependency _ _ _)) eqn:E2; [exact E2|].
    exact Hfp.
  - intros -> ->. exact Hreason.
Qed.

Lemma undeclared_dependency_is_false_positive_witness :
  let vuln :=
    mkFinding "CVE-2021-3807" "ansi-regex" "5.0.0" "5.0.0" "CRITICAL"
      "Inefficient regular expression complexity" [] "src/index.js" in
  let verdict :=
    analyzeVulnerability "linux" vuln (Some lodashManifest)
      (analyzeReachability (mkOwasp [vuln]) (Some lodashManifest) None) in
  isFalsePositive verdict = true /\
  fp_reason verdict = Some UNUSED_TRANSITIVE /\ fp_confidence verdict = MEDIUM.
Proof.
  destruct (undeclared_dependency_is_false_positive "linux"
              (mkFinding "CVE-2021-3807" "ansi-regex" "5.0.0" "5.0.0" "CRITICAL"
                 "Inefficient regular expression complexity" [] "src/index.js")
              lodashManifest
              (analyzeReachability
                 (mkOwasp [mkFinding "CVE-2021-3807" "ansi-regex" "5.0.0" "5.0.0" "CRITICAL"
                             "Inefficient regular expression complexity" [] "src/index.js"])
                 (Some lodashManifest) None)
              eq_refl eq_refl eq_refl eq_refl eq_refl) as [Hfp Hreason].
  split; [exact Hfp|]. exact (Hreason eq_refl eq_refl).
Defined.

(** ** The two copies of extractPackageName *)

Lemma removeAtEnd_head (r : JS.re) (s : string) :
  JS.startsWith s "@" = false -> JS.startsWith (JS.removeAtEnd r s) "@" = false.
Proof.
  destruct s as [|c s]; cbn [JS.removeAtEnd].
  - now destruct (JS.matches r "").
  - destruct (JS.matches r (String c s)); [reflexivity|]. intros H.
    destruct (Ascii.eqb "@" c) eqn:E.
    + exfalso. cbn [JS.startsWith] in H. rewrite E in H. now destruct s.
    + cbn [JS.startsWith]. now rewrite E.
Qed.

Lemma split_head (sep : ascii) (s : string) :
  JS.startsWith (hd "" (JS.split sep s)) (String sep "") = false.
Proof.
  destruct s as [|c s]; [reflexivity|]. rewrite split_cons.
  destruct (Ascii.eqb c sep) eqn:E; [reflexivity|].
  destruct (JS.split sep s); cbn; now rewrite Ascii.eqb_sym, E.
Qed.

Lemma scoped_block_skipped (name : string) :
  JS.startsWith name "@" = false ->
  match name with
  | String "@" rest =>
      match JS.indexOf "@" rest with
      | Some i => JS.take (S i) name
      | None => name
      end
  | _ => name
  end = name.
Proof.
  destruct name as [|c rest]; [reflexivity|]. intros H.
  destruct c as [[] [] [] [] [] [] [] []]; try reflexivity.
  exfalso. cbn in H. now destruct rest.
Qed.

(** X18. The analyzer and the detector each carry a copy of
    extractPackageName; the two agree on every dependency string that does
    not start with an at sign, and may differ otherwise: of a scoped package
    with a version suffix the analyzer keeps the scoped name and the detector
    the whole string. *)
Theorem extractPackageName_copies_agree (dependency : string) :
  (JS.startsWith dependency "@" = false ->
   ReachabilityAnalyzer.extractPackageName dependency =
   FalsePositiveDetector.extractPackageName dependency) /\
  ReachabilityAnalyzer.extractPackageName "@babel/core@7.1.0" = "@babel/core" /\
  FalsePositiveDetector.extractPackageName "@babel/core@7.1.0" = "@babel/core@7.1.0".
Proof.
  split; [|split; reflexivity].
  intros Hat.
  unfold ReachabilityAnalyzer.extractPackageName, FalsePositiveDetector.extractPackageName.
  destruct (JS.truthy dependency); [|reflexivity]. cbn [negb].
  pose proof (removeAtEnd_head archiveExtension dependency Hat) as Hname.
  set (name := JS.removeAtEnd archiveExtension dependency) in *.
  destruct (if JS.includes name ":" then JS.split ":" name else []) as [|? [|? ?]];
    try reflexivity;
    (destruct (JS.includes name "@" && negb (JS.startsWith name "@"));
     [rewrite scoped_block_skipped; [reflexivity | apply split_head]
     | rewrite scoped_block_skipped; [reflexivity | exact Hname]]).
Qed.

Lemma extractPackageName_copies_agree_witness :
  ReachabilityAnalyzer.extractPackageName "commons-lang3-3.9.jar" =
  FalsePositiveDetector.extractPackageName "commons-lang3-3.9.jar".
Proof.
  exact (proj1 (extractPackageName_copies_agree "commons-lang3-3.9.jar") eq_refl).
Defined.

(** ** The false positives reported *)

Lemma omap_detect_originals (runtimePlatform : string) (manifestData : option Manifest)
  (reachabilityResults : ReachabilityResults) (findings : list Finding) :
  map originalVuln (omap (detectOne runtimePlatform manifestData reachabilityResults) findings) =
  filter (fun vuln =>
            isFalsePositive
              (analyzeVulnerability runtimePlatform vuln manifestData reachabilityResults)
            = true) findings.
Proof.
  induction findings as [|vuln rest IH]; [reflexivity|].
  cbn [omap list_omap]. rewrite filter_cons. unfold detectOne at 1.
  destruct (isFalsePositive _) eqn:E.
  - destruct (decide (true = true)); [|contradiction]. cbn [map originalVuln]. now rewrite <- IH.
  - destruct (decide (false = true)); [discriminate|]. exact IH.
Qed.

(** X19. detectFalsePositives reports, in report order and once each, the
    findings on which the chain fires; every reported entry carries the
    cveId of its finding, the dependency formatted with the finding's
    version, and a reason. *)
Theorem false_positives_in_report_order (runtimePlatform : string) (owaspData : OwaspData)
  (manifestData : option Manifest) (reachabilityResults : ReachabilityResults) :
  let falsePositives :=
    detectFalsePositives runtimePlatform owaspData manifestData reachabilityResults in
  map originalVuln falsePositives =
    filter (fun vuln =>
              isFalsePositive
                (analyzeVulnerability runtimePlatform vuln manifestData reachabilityResults)
              = true) (vulnerabilities owaspData) /\
  Forall (fun fp =>
            cve_id fp = cveId (originalVuln fp) /\
            fp_dependency fp =
              formatDependency (dependency (originalVuln fp)) (version (originalVuln fp)) /\
            isSome (reason_code fp) = true)
    falsePositives.
Proof.
  intros falsePositives. split; [apply omap_detect_originals|].
  apply Forall_forall. intros fp Hin.
  unfold falsePositives, detectFalsePositives in Hin.
  apply list_elem_of_omap in Hin as [vuln [_ Hd]]. unfold detectOne in Hd.
  pose proof (fired_reason runtimePlatform vuln manifestData reachabilityResults) as Hreason.
  cbv zeta in Hreason.
  destruct (isFalsePositive _); [|discriminate].
  injection Hd as <-. cbn [cve_id fp_dependency originalVuln reason_code].
  repeat split. now apply Hreason.
Qed.

(** ** The summary *)

Lemma countReason_step (counts : gmap string nat) (fp : FalsePositive) (key : string) :
  countReason counts fp !! key =
  if decide (reasonName (reason_code fp) = key)
  then Some (default 0 (counts !! key) + 1)
  else counts !! key.
Proof.
  unfold countReason. destruct (decide _) as [<-|Hne].
  - apply lookup_insert_eq.
  - now apply lookup_insert_ne.
Qed.

Lemma countReason_lookup (falsePositives : list FalsePositive) (counts : gmap string nat)
  (key : string) :
  fold_left countReason falsePositives counts !! key =
  let n := length (filter (fun fp => reasonName (reason_code fp) = key) falsePositives) in
  if Nat.eqb n 0 then counts !! key else Some (default 0 (counts !! key) + n).
Proof.
  revert counts; induction falsePositives as [|fp rest IH]; intros counts; [reflexivity|].
  cbn [fold_left]. rewrite IH, filter_cons, countReason_step. cbv zeta.
  destruct (decide (reasonName (reason_code fp) = key)) as [Heq|Hne]; [|reflexivity].
  cbn [length default from_option]. unfold id.
  destruct (length (filter _ rest)) as [|n]; cbn [Nat.eqb]; f_equal; lia.
Qed.

(** X20. The histogram of reasons in the summary maps every reason name to
    the number of false positives that carry it, and has no entry for a
    reason that no false positive carries. *)
Theorem reason_histogram_counts (falsePositives : list FalsePositive)
  (trueVulnerabilities : list TrueVulnerability) (key : string) :
  let n := length (filter (fun fp => reasonName (reason_code fp) = key) falsePositives) in
  false_positive_reasons (generateSummary falsePositives trueVulnerabilities) !! key =
  if Nat.eqb n 0 then None else Some n.
Proof.
  cbn [generateSummary false_positive_reasons]. rewrite countReason_lookup.
  cbv zeta. now rewrite lookup_empty.
Qed.

Lemma countSeverity_step (counts : SeverityCounts) (v : TrueVulnerability) :
  let next := countSeverity counts v in
  critical next + high next + medium next + low next <=
    critical counts + high counts + medium counts + low counts + 1 /\
  critical next + high next =
    critical counts + high counts + (if isUrgent v then 1 else 0).
Proof.
  unfold countSeverity, isUrgent. fold (severityClass v).
  destruct (String.eqb (severityClass v) "critical");
    [|destruct (String.eqb (severityClass v) "high");
      [|destruct (String.eqb (severityClass v) "medium");
        [|destruct (String.eqb (severityClass v) "low")]]];
    cbn [critical high medium low orb]; lia.
Qed.

Lemma countSeverity_fold (vulns : list TrueVulnerability) (counts : SeverityCounts) :
  let final := fold_left countSeverity vulns counts in
  critical final + high final + medium final + low final <=
    critical counts + high counts + medium counts + low counts + length vulns /\
  critical final + high final =
    critical counts + high counts + length (filter (fun v => isUrgent v = true) vulns).
Proof.
  revert counts; induction vulns as [|v rest IH]; intros counts; cbn [fold_left].
  - cbn. lia.
  - destruct (IH (countSeverity counts v)) as [Hsum Hurgent].
    destruct (countSeverity_step counts v) as [Hsum1 Hurgent1].
    cbv zeta in *. rewrite filter_cons.
    destruct (isUrgent v); destruct (decide _); try congruence; cbn [length]; lia.
Qed.

Lemma upperChar_lowerChar (c : ascii) : JS.upperChar (JS.lowerChar c) = JS.upperChar c.
Proof. destruct c as [[] [] [] [] [] [] [] []]; reflexivity. Qed.

Lemma toUpperCase_toLowerCase (s : string) :
  JS.toUpperCase (JS.toLowerCase s) = JS.toUpperCase s.
Proof.
  unfold JS.toUpperCase, JS.toLowerCase. rewrite mapChars_compose.
  apply mapChars_ext, upperChar_lowerChar.
Qed.

Lemma riskWeight_positive (vuln : TrueVulnerability) : 1 <= riskWeight vuln.
Proof.
  unfold riskWeight, weightOf.
  repeat (destruct (String.eqb _ _); [lia|]). lia.
Qed.

Lemma riskWeight_urgent (vuln : TrueVulnerability) :
  isUrgent vuln = true -> 15 <= riskWeight vuln.
Proof.
  unfold isUrgent, severityClass, riskWeight. intros H.
  assert (Hup : JS.toUpperCase (JS.orElse (tv_severity vuln) "LOW") = "CRITICAL" \/
                JS.toUpperCase (JS.orElse (tv_severity vuln) "LOW") = "HIGH").
  { destruct (tv_severity vuln) as [|c s] eqn:Hs; [discriminate H|].
    cbn [JS.orElse JS.truthy] in *.
    rewrite <- toUpperCase_toLowerCase.
    apply orb_true_iff in H as [H|H]; apply String.eqb_eq in H; rewrite H; auto. }
  destruct Hup as [-> | ->]; cbn; lia.
Qed.

Lemma list_sum_lower_bound {A : Type} (f : A -> nat) (l : list A) (x : A) :
  x ∈ l -> f x <= list_sum (map f l).
Proof.
  induction 1 as [x l|x y l _ IH]; simpl; lia.
Qed.

(** X21. In the summary the four severity counts never add up to more than
    the number of true vulnerabilities (an unrecognised severity is counted
    nowhere); immediate action is required exactly when some true
    vulnerability is critical or high, letter case aside, and then the risk
    score is at least 15; the risk score is 0 only for the empty list. *)
Theorem summary_consistent (falsePositives : list FalsePositive)
  (trueVulnerabilities : list TrueVulnerability) :
  let s := generateSummary falsePositives trueVulnerabilities in
  let counts := severity_breakdown s in
  critical counts + high counts + medium counts + low counts <= length trueVulnerabilities /\
  (requires_immediate_action s = true <->
   Exists (fun vuln => isUrgent vuln = true) trueVulnerabilities) /\
  (requires_immediate_action s = true -> 15 <= risk_score s) /\
  (risk_score s = 0 <-> trueVulnerabilities = []).
Proof.
  intros s counts.
  destruct (countSeverity_fold trueVulnerabilities (mkCounts 0 0 0 0)) as [Hsum Hurgent].
  cbv zeta in Hsum, Hurgent. cbn [critical high medium low] in Hsum, Hurgent.
  fold (severity_breakdown s) in Hsum, Hurgent. fold counts in Hsum, Hurgent.
  assert (Haction : requires_immediate_action s = true <->
                    Exists (fun vuln => isUrgent vuln = true) trueVulnerabilities).
  { cbn [s generateSummary requires_immediate_action].
    fold (severity_breakdown s). fold counts.
    rewrite orb_true_iff, !Nat.ltb_lt.
    rewrite Exists_exists. split.
    - intros H.
      destruct (filter (fun v => isUrgent v = true) trueVulnerabilities) as [|v l] eqn:Hf;
        [cbn in Hurgent; lia|].
      assert (Hv : v ∈ filter (fun v => isUrgent v = true) trueVulnerabilities)
        by (rewrite Hf; apply list_elem_of_here).
      apply list_elem_of_filter in Hv as [Hv Hin]. now exists v.
    - intros [v [Hin Hv]].
      assert (Hf : v ∈ filter (fun v => isUrgent v = true) trueVulnerabilities)
        by (apply list_elem_of_filter; now split).
      destruct (filter _ trueVulnerabilities); [inversion Hf|]. cbn in Hurgent. lia. }
  assert (Hrisk : risk_score s =
                  Nat.min 100 (list_sum (map riskWeight trueVulnerabilities))).
  { cbn [s generateSummary risk_score]. unfold calculateRiskScore.
    destruct trueVulnerabilities; [reflexivity|].
    cbn [length Nat.eqb]. now rewrite fold_left_score. }
  split; [unfold counts, s; cbn [generateSummary severity_breakdown]; lia|].
  split; [exact Haction|]. split.
  - intros H. apply Haction, Exists_exists in H as [v [Hin Hv]].
    rewrite Hrisk. pose proof (list_sum_lower_bound riskWeight _ _ Hin).
    pose proof (riskWeight_urgent v Hv). lia.
  - rewrite Hrisk. split.
    + destruct trueVulnerabilities as [|v l]; [reflexivity|]. intros H. exfalso.
      pose proof (riskWeight_positive v).
      change (list_sum (map riskWeight (v :: l)))
        with (riskWeight v + list_sum (map riskWeight l)) in H. lia.
    + intros ->. reflexivity.
Qed.

Lemma summary_consistent_witness :
  15 <= risk_score (generateSummary [] [mkTrueVulnerability "CVE-1" "dep" "High" "" []]).
Proof.
  exact (proj1 (proj2 (proj2 (summary_consistent []
           [mkTrueVulnerability "CVE-1" "dep" "High" "" []]))) eq_refl).
Defined.

(** ** Validation of the generated output *)

Lemma missing_nil (present : bool) (message : string) :
  missing present message = [] <-> present = true.
Proof. destruct present; cbn; split; (reflexivity || discriminate). Qed.

Lemma flat_map_nil {A B : Type} (f : A -> list B) (l : list A) :
  flat_map f l = [] <-> Forall (fun x => f x = []) l.
Proof.
  induction l as [|x l IH]; cbn [flat_map]; [split; [constructor | reflexivity]|].
  split.
  - intros H. apply app_nil in H as [Hx Hl]. constructor; [exact Hx | now apply IH].
  - intros H. inversion H as [|? ? Hx Hl]; subst. rewrite Hx. now apply IH.
Qed.

Lemma truthy_nonempty (s : string) : JS.truthy s = true <-> s <> "".
Proof. destruct s; cbn; split; (congruence || discriminate || reflexivity). Qed.

(** X22. The output generateJsonOutput builds passes validateJsonOutput
    exactly when the timestamp is not empty, every false positive has a
    cve_id, a dependency and a reason, and every true vulnerability has a
    cve_id, a dependency and a severity; the project name is never reported
    missing, because it is defaulted, and the result is valid exactly when
    the list of errors is empty. *)
Theorem generated_output_validation (now : string) (falsePositives : list FalsePositive)
  (trueVulnerabilities : list TrueVulnerability) (meta : MetadataInput) :
  let result :=
    validateJsonOutput (generateJsonOutput now falsePositives trueVulnerabilities meta) in
  (valid result = true <->
   now <> "" /\
   Forall (fun fp => cve_id fp <> "" /\ fp_dependency fp <> "" /\ reason_code fp <> None)
     falsePositives /\
   Forall (fun vuln => tv_cve_id vuln <> "" /\ tv_dependency vuln <> "" /\
                       tv_severity vuln <> "") trueVulnerabilities) /\
  (valid result = true <-> errors result = []).
Proof.
  intros result.
  assert (Hvalid : valid result = true <-> errors result = []).
  { unfold result, validateJsonOutput. cbn [valid errors].
    rewrite Nat.eqb_eq. apply length_zero_iff_nil. }
  split; [|exact Hvalid]. rewrite Hvalid.
  unfold result, validateJsonOutput, generateJsonOutput, formatFalsePositives,
    formatTrueVulnerabilities.
  cbn [errors metadata false_positives true_vulnerabilities analysis_timestamp project_name].
  assert (Hname : missing (JS.truthy (JS.orElse (projectName meta) "Unknown Project"))
                    "Missing project_name in metadata" = [])
    by (apply missing_nil; unfold JS.orElse; now destruct (projectName meta)).
  rewrite Hname, app_nil_r.
  rewrite !app_nil, missing_nil, truthy_nonempty, !flat_map_nil, !Forall_map.
  cbn [out_cve_id out_dependency out_reason tv_cve_id tv_dependency tv_severity].
  split.
  - intros [[Hnow Hfp] Htv]. split; [exact Hnow|]. split.
    + eapply Forall_impl; [exact Hfp|]. intros fp H.
      rewrite !app_nil, !missing_nil, !truthy_nonempty in H.
      destruct H as [H1 [H2 H3]]. repeat split; try assumption.
      destruct (reason_code fp); [discriminate | discriminate H3].
    + eapply Forall_impl; [exact Htv|]. intros v H.
      rewrite !app_nil, !missing_nil, !truthy_nonempty in H. tauto.
  - intros [Hnow [Hfp Htv]]. split; [split; [exact Hnow|]|].
    + eapply Forall_impl; [exact Hfp|]. intros fp [H1 [H2 H3]].
      rewrite !app_nil, !missing_nil, !truthy_nonempty.
      repeat split; try assumption. destruct (reason_code fp); [reflexivity | contradiction].
    + eapply Forall_impl; [exact Htv|]. intros v H. cbv beta in H.
      rewrite !app_nil, !missing_nil, !truthy_nonempty. tauto.
Qed.

(** ** The report service *)

(** X23. With a client at hand, generateLLMReport sends at most three
    requests and returns the answer of the first attempt that resolves with
    a non-empty content; it sleeps 2000 ms after a first failure and 4000 ms
    after a second one, and not at all after the third, upon which it returns
    the fallback report (model fallback, 0 tokens) with the message of the
    third failure. *)
Theorem retry_schedule (now fallbackContent : string) (api : nat -> Outcome)
  (envKey : string) :
  let run := generateLLMReport now fallbackContent api true envKey in
  match failure (api 1), failure (api 2), failure (api 3) with
  | None, _, _ => run = (inr (answer now (api 1)), [Request 1])
  | Some _, None, _ =>
      run = (inr (answer now (api 2)), [Request 1; Sleep 2000; Request 2])
  | Some _, Some _, None =>
      run = (inr (answer now (api 3)),
             [Request 1; Sleep 2000; Request 2; Sleep 4000; Request 3])
  | Some _, Some _, Some message =>
      run = (inr (mkReport fallbackContent "fallback" now 0
                    (Some (JS.orElse message "Unknown error"))),
             [Request 1; Sleep 2000; Request 2; Sleep 4000; Request 3])
  end.
Proof.
  unfold generateLLMReport, getGroqClient, maxRetries, failure, answer.
  cbn [attempts app Nat.ltb Nat.leb Nat.pow Nat.mul Nat.add].
  destruct (api 1) as [m1|c1 t1]; [|destruct (JS.truthy c1); [reflexivity|]];
    (destruct (api 2) as [m2|c2 t2]; [|destruct (JS.truthy c2); [reflexivity|]]);
    (destruct (api 3) as [m3|c3 t3]; [|destruct (JS.truthy c3); [reflexivity|]]);
    reflexivity.
Qed.

Lemma startsWith_gsk_truthy (s : string) :
  JS.startsWith s "gsk_" = true ->
  JS.truthy s = true /\ String.eqb s "your_groq_api_key_here" = false.
Proof.
  destruct s as [|c s]; [discriminate|]. intros H. split; [reflexivity|].
  apply String.eqb_neq. intros Heq. rewrite Heq in H. discriminate H.
Qed.

(** X24. getGroqClient accepts exactly the keys that, once trimmed, start
    with gsk_ (its two other tests never decide); with a rejected key and no
    cached client generateLLMReport throws the configuration error before
    any request is sent, and no fallback report is produced; once a client
    is cached the key is not looked at again. *)
Theorem client_configuration (now fallbackContent : string) (api : nat -> Outcome)
  (envKey : string) :
  keyRejected envKey = negb (JS.startsWith (JS.trim envKey) "gsk_") /\
  (keyRejected envKey = true ->
   generateLLMReport now fallbackContent api false envKey =
   (inl "GROQ_API_KEY is not configured. Please set a valid API key in .env file.", [])) /\
  (keyRejected envKey = false ->
   generateLLMReport now fallbackContent api false envKey =
   generateLLMReport now fallbackContent api true envKey) /\
  getGroqClient true envKey = inr true.
Proof.
  split; [|split; [|split; [|reflexivity]]].
  - unfold keyRejected. cbv zeta.
    destruct (JS.startsWith (JS.trim envKey) "gsk_") eqn:H.
    + apply startsWith_gsk_truthy in H as [-> ->]. reflexivity.
    + cbn [negb]. apply orb_true_r.
  - intros H. unfold generateLLMReport, getGroqClient. now rewrite H.
  - intros H. unfold generateLLMReport, getGroqClient. now rewrite H.
Qed.

Lemma client_configuration_witness :
  generateLLMReport "2024-01-01T00:00:00.000Z" "" (fun _ => Rejects "timeout") false
    "your_groq_api_key_here" =
  (inl "GROQ_API_KEY is not configured. Please set a valid API key in .env file.", []).
Proof.
  exact (proj1 (proj2 (client_configuration "2024-01-01T00:00:00.000Z" ""
                         (fun _ => Rejects "timeout") "your_groq_api_key_here")) eq_refl).
Defined.
